(** * co2-monitor: the frame cipher, the frame decoder and the device session

    A shallow embedding of [src/co2-monitor.js] (class [CO2Monitor]) and the
    properties of its decode pipeline and of its connection life cycle.

    Conventions of the embedding.
    - A Node [Buffer] is a [list Z] of bytes; reading past its end gives
      [undefined], written [None].
    - A JavaScript array built by indexed assignment is a [list (option Z)]
      whose holes are [None]; assigning past the end extends the array.
    - The bitwise operators work on 32-bit integers: their operands go
      through [to_int32] and shift counts are taken modulo 32.
    - JavaScript numbers that are not integers are binary64 floats
      ([PrimFloat.float]).
    - Methods of the session run in a state-and-exception monad over the
      session fields and a trace of everything observable from outside:
      emitted events, invocations of the caller's callback and calls into
      the [usb] library. *)

From Stdlib Require Import ZArith List Bool String Lia.
From Stdlib Require Import PrimFloat SpecFloat FloatOps.
From Stdlib Require Uint63.
Import ListNotations.

#[local] Set Warnings "-inexact-float".
#[local] Open Scope Z_scope.

(** ** JavaScript numbers and bitwise operators *)

Module JS.

(** ToInt32: wrap an integer into the signed 32-bit range. *)
Definition to_int32 (z : Z) : Z := (z + 2 ^ 31) mod 2 ^ 32 - 2 ^ 31.

(** ToInt32 of a possibly [undefined] operand: [undefined] converts to
    NaN and NaN to 0. *)
Definition int32_of (v : option Z) : Z :=
  match v with
  | Some z => to_int32 z
  | None => 0
  end.

Definition xor (a b : option Z) : Z := Z.lxor (int32_of a) (int32_of b).
Definition bor (a b : Z) : Z := Z.lor (to_int32 a) (to_int32 b).
Definition band (a b : Z) : Z := Z.land (to_int32 a) (to_int32 b).
Definition shl (a : option Z) (n : Z) : Z :=
  to_int32 (Z.shiftl (int32_of a) (n mod 32)).
Definition shr (a : option Z) (n : Z) : Z :=
  Z.shiftr (int32_of a) (n mod 32).

(** Indexing a Buffer. *)
Definition buf_get (b : list Z) (i : nat) : option Z := nth_error b i.

(** Indexing a (possibly sparse) array. *)
Definition arr_get (a : list (option Z)) (i : nat) : option Z :=
  match nth_error a i with
  | Some v => v
  | None => None
  end.

(** [a[i] = v]: overwrite in range, extend with holes out of range. *)
Fixpoint arr_set (a : list (option Z)) (i : nat) (v : Z) : list (option Z) :=
  match i, a with
  | O, [] => [Some v]
  | O, _ :: t => Some v :: t
  | S j, [] => None :: arr_set [] j v
  | S j, h :: t => h :: arr_set t j v
  end.

(** A Buffer seen through the array interface. *)
Definition of_buffer (b : list Z) : list (option Z) := map Some b.

(** The integer [z] as a JavaScript number. *)
Definition num_of_Z (z : Z) : float :=
  if z <? 0 then (- of_uint63 (Uint63.of_Z (- z)))%float
  else of_uint63 (Uint63.of_Z z).

(** [parseFloat(x.toFixed(2))].  For a finite [x] below 10^21 in magnitude,
    [toFixed(2)] prints n/100 for the integer n that makes n/100 closest
    to the exact value of [x] (the larger n on a tie), after the sign;
    [parseFloat] reads that decimal back as the nearest double.  Other
    values print as [ToString] prints them and read back unchanged. *)
Definition hundredths (m : positive) (e : Z) : Z :=
  match e with
  | Zneg p => (2 * (100 * Zpos m) + 2 ^ Zpos p) / (2 * 2 ^ Zpos p)
  | _ => 100 * Zpos m * 2 ^ e
  end.

Definition decimal2 (s : bool) (n : Z) : float :=
  match n with
  | Zpos p =>
      SF2Prim (SFdiv prec emax (S754_finite s p 0) (S754_finite false 100 0))
  | _ => if s then neg_zero else zero
  end.

Definition toFixed2 (x : float) : float :=
  if (1e21 <=? abs x)%float then x
  else
    match Prim2SF x with
    | S754_finite s m e => decimal2 s (hundredths m e)
    | S754_zero _ => zero
    | _ => x
    end.

End JS.

(** ** FrameCipher: [CO2Monitor._decrypt] *)

Definition cstate : list Z := [0x48; 0x74; 0x65; 0x6D; 0x70; 0x39; 0x39; 0x65].
Definition shuffle : list nat := [2; 4; 0; 7; 1; 6; 5; 3]%nat.

(** Index of the previous position, [(i - 1 + 8) % 8]. *)
Definition prev_index (i : nat) : nat := Z.to_nat (Z.rem (Z.of_nat i - 1 + 8) 8).

(** The first loop: [dataXor[shuffle[i]] = data[i] ^ key[shuffle[i]]]. *)
Definition xor_step (key data : list Z) (dataXor : list (option Z)) (i : nat)
  : list (option Z) :=
  let idx := nth i shuffle 0%nat in
  JS.arr_set dataXor idx (JS.xor (JS.buf_get data i) (JS.buf_get key idx)).

(** The second loop:
    [dataTmp[i] = ((dataXor[i] >> 3) | (dataXor[(i - 1 + 8) % 8] << 5)) & 0xff]. *)
Definition mix_step (dataXor dataTmp : list (option Z)) (i : nat)
  : list (option Z) :=
  JS.arr_set dataTmp i
    (JS.band (JS.bor (JS.shr (JS.arr_get dataXor i) 3)
                     (JS.shl (JS.arr_get dataXor (prev_index i)) 5))
             0xff).

(** [ctmp = ((cstate[i] >> 4) | (cstate[i] << 4)) & 0xff]. *)
Definition ctmp (i : nat) : Z :=
  JS.band (JS.bor (JS.shr (nth_error cstate i) 4) (JS.shl (nth_error cstate i) 4))
          0xff.

(** The third loop: [results[i] = (0x100 + dataTmp[i] - ctmp) & 0xff].  The
    sum is a sum of numbers; on an [undefined] operand it would be NaN, and
    NaN & 0xff is 0. *)
Definition sub_step (dataTmp results : list (option Z)) (i : nat)
  : list (option Z) :=
  JS.arr_set results i
    match JS.arr_get dataTmp i with
    | Some v => JS.band (0x100 + v - ctmp i) 0xff
    | None => 0
    end.

Definition _decrypt (key data : list Z) : list (option Z) :=
  let length := List.length cstate in
  let dataXor := fold_left (xor_step key data) (seq 0 length) [] in
  let dataTmp := fold_left (mix_step dataXor) (seq 0 length) [] in
  fold_left (sub_step dataTmp) (seq 0 length) [].

(** The key buffer set by the constructor. *)
Definition fixed_key : list Z := [0xc4; 0xc6; 0xc0; 0x92; 0x40; 0x23; 0xdc; 0x96].

(** ** Values, errors and the objects of the [usb] library *)

Inductive jsval :=
| VUndefined
| VNull
| VBool (b : bool)
| VNum (x : float)
| VStr (s : string).

(** ToBoolean. *)
Definition truthy (v : jsval) : bool :=
  match v with
  | VUndefined | VNull => false
  | VBool b => b
  | VNum x => negb (is_zero x || is_nan x)
  | VStr s => negb (String.eqb s "")
  end.

(** The constructor's [options] object; a property that is not given reads
    as [VUndefined]. *)
Record options := { vid : jsval; pid : jsval; debug : jsval }.

Inductive error :=
| JsError (msg : string)       (* new Error(msg) *)
| JsTypeError (prop : string)  (* property [prop] read from null or undefined *)
| UsbError (errno : Z).        (* an error raised by the usb library *)

(** A field that holds [null], [undefined] or an object. *)
Inductive ref (A : Type) :=
| Null
| Undefined
| Obj (a : A).
Arguments Null {A}.
Arguments Undefined {A}.
Arguments Obj {A} a.

Definition ref_of {A : Type} (o : option A) : ref A :=
  match o with
  | Some a => Obj a
  | None => Undefined
  end.

Record endpoint := { address : Z }.
Record interface := { kernelDriverActive : bool; endpoints : list endpoint }.
Record device := { interfaces : list interface }.

(** Calls into the library, as they appear in the trace. *)
Inductive usb_call :=
| SetDebugLevel (level : Z)
| Open
| IsKernelDriverActive
| DetachKernelDriver
| ControlTransfer (bmReqType bReq wValue wIdx : Z) (data : list Z)
| Claim
| Transfer (len : Z)
| StartPoll (nTransfers : Z)
| On (name : string)
| StopPoll
| AttachKernelDriver
| Release (closeEndpoints : bool)
| Close.

Inductive event :=
| EvError (e : error)
| EvConnect (ep : ref endpoint)
| EvDisconnect
| EvTemp (t : float)
| EvCo2 (v : Z)
| EvHum (h : float).

Inductive action :=
| ConsoleLog
| Usb (c : usb_call)
| Emit (ev : event)
| Callback (err : option error).

(** How the platform and the library answer.  A synchronous method fails by
    throwing ([_throws]); an asynchronous one fails by handing [err] to its
    completion callback ([_err]), which the library invokes once. *)
Record usb_env := {
  platform : string;
  findByIds : jsval -> jsval -> option device;
  open_throws : option error;
  detachKernelDriver_throws : option error;
  controlTransfer_err : option error;
  claim_throws : option error;
  transfer_err : option error;
  startPoll_throws : option error;
  stopPoll_throws : option error;
  attachKernelDriver_throws : option error;
  release_err : option error;
  close_throws : option error
}.

(** ** The session object *)

Record monitor := {
  _vid : jsval;
  _pid : jsval;
  _debug : jsval;
  _key : list Z;
  _device : ref device;
  _interface : ref interface;
  _endpoint : ref endpoint;
  _co2 : option Z;
  _temp : option float;
  _hum : option float
}.

Definition set_device (r : ref device) (m : monitor) : monitor :=
  {| _vid := _vid m; _pid := _pid m; _debug := _debug m; _key := _key m;
     _device := r; _interface := _interface m; _endpoint := _endpoint m;
     _co2 := _co2 m; _temp := _temp m; _hum := _hum m |}.

Definition set_interface (r : ref interface) (m : monitor) : monitor :=
  {| _vid := _vid m; _pid := _pid m; _debug := _debug m; _key := _key m;
     _device := _device m; _interface := r; _endpoint := _endpoint m;
     _co2 := _co2 m; _temp := _temp m; _hum := _hum m |}.

Definition set_endpoint (r : ref endpoint) (m : monitor) : monitor :=
  {| _vid := _vid m; _pid := _pid m; _debug := _debug m; _key := _key m;
     _device := _device m; _interface := _interface m; _endpoint := r;
     _co2 := _co2 m; _temp := _temp m; _hum := _hum m |}.

Definition set_co2 (v : Z) (m : monitor) : monitor :=
  {| _vid := _vid m; _pid := _pid m; _debug := _debug m; _key := _key m;
     _device := _device m; _interface := _interface m; _endpoint := _endpoint m;
     _co2 := Some v; _temp := _temp m; _hum := _hum m |}.

Definition set_temp (t : float) (m : monitor) : monitor :=
  {| _vid := _vid m; _pid := _pid m; _debug := _debug m; _key := _key m;
     _device := _device m; _interface := _interface m; _endpoint := _endpoint m;
     _co2 := _co2 m; _temp := Some t; _hum := _hum m |}.

Definition set_hum (h : float) (m : monitor) : monitor :=
  {| _vid := _vid m; _pid := _pid m; _debug := _debug m; _key := _key m;
     _device := _device m; _interface := _interface m; _endpoint := _endpoint m;
     _co2 := _co2 m; _temp := _temp m; _hum := Some h |}.

(** The getters [temperature], [co2] and [humidity]. *)
Definition temperature (m : monitor) : option float := _temp m.
Definition co2 (m : monitor) : option Z := _co2 m.
Definition humidity (m : monitor) : option float := _hum m.

(** The object together with what it has done so far. *)
Record session := { this : monitor; trace : list action }.

(** ** The monad of methods *)

Inductive outcome (A : Type) :=
| Returned (a : A)
| Thrown (e : error).
Arguments Returned {A} a.
Arguments Thrown {A} e.

Definition M (A : Type) : Type := session -> outcome A * session.

Definition ret {A : Type} (a : A) : M A := fun s => (Returned a, s).

Definition bind {A B : Type} (c : M A) (k : A -> M B) : M B :=
  fun s =>
    match c s with
    | (Returned a, s') => k a s'
    | (Thrown e, s') => (Thrown e, s')
    end.

Definition throw {A : Type} (e : error) : M A := fun s => (Thrown e, s).

Declare Scope js_scope.
Delimit Scope js_scope with js.
Notation "x <- c ;; k" := (bind c (fun x => k))
  (at level 61, c at next level, right associativity) : js_scope.
Notation "c ;; k" := (bind c (fun _ => k))
  (at level 61, right associativity) : js_scope.
#[local] Open Scope js_scope.

Definition get_this : M monitor := fun s => (Returned (this s), s).

Definition update (f : monitor -> monitor) : M unit :=
  fun s => (Returned tt, {| this := f (this s); trace := trace s |}).

Definition record (a : action) : M unit :=
  fun s => (Returned tt, {| this := this s; trace := trace s ++ [a] |}).

(** [this.emit(...)]: the emission is recorded.  The listeners are the
    caller's; they are taken to be installed (an 'error' without a listener
    is thrown by the emitter) and to return without calling back into the
    session. *)
Definition emit (ev : event) : M unit := record (Emit ev).

(** [callback(err)] *)
Definition callback (err : option error) : M unit := record (Callback err).

(** A synchronous library call, which may throw. *)
Definition usb (c : usb_call) (throws : option error) : M unit :=
  record (Usb c) ;;
  match throws with
  | Some e => throw e
  | None => ret tt
  end.

(** Reading property [prop] of a field: a TypeError on null and undefined. *)
Definition deref {A : Type} (prop : string) (r : ref A) : M A :=
  match r with
  | Obj a => ret a
  | _ => throw (JsTypeError prop)
  end.

(** ** [constructor(options)] *)

(** [(o && get(o)) || dflt] *)
Definition or_default (o : option options) (get : options -> jsval)
  (dflt : jsval) : jsval :=
  match o with
  | None => dflt
  | Some r => if truthy (get r) then get r else dflt
  end.

Definition constructor (o : option options) : session :=
  let dbg := or_default o debug (VBool false) in
  {| this := {| _vid := or_default o vid (VNum 0x04D9);
                _pid := or_default o pid (VNum 0xA052);
                _debug := dbg;
                _key := fixed_key;
                _device := Null; _interface := Null; _endpoint := Null;
                _co2 := None; _temp := None; _hum := None |};
     trace := ConsoleLog :: (if truthy dbg then [Usb (SetDebugLevel 4)] else []) |}.

(** ** [connect(callback)] *)

Definition is_linux (env : usb_env) : bool := String.eqb (platform env) "linux".

Definition connect (env : usb_env) : M unit :=
  m <- get_this ;;
  update (set_device (ref_of (findByIds env (_vid m) (_pid m)))) ;;
  m <- get_this ;;
  match _device m with
  | Obj dev =>
      usb Open (open_throws env) ;;
      update (set_interface (ref_of (nth_error (interfaces dev) 0))) ;;
      m <- get_this ;;
      (if is_linux env then
         itf <- deref "isKernelDriverActive" (_interface m) ;;
         usb IsKernelDriverActive None ;;
         if kernelDriverActive itf
         then usb DetachKernelDriver (detachKernelDriver_throws env)
         else ret tt
       else ret tt) ;;
      match _interface m with
      | Obj itf =>
          usb (ControlTransfer 0x21 0x09 0x0300 0x00 (_key m)) None ;;
          match controlTransfer_err env with
          | Some err =>
              emit (EvError err) ;;
              callback (Some err)
          | None =>
              usb Claim (claim_throws env) ;;
              update (set_endpoint (ref_of (nth_error (endpoints itf) 0))) ;;
              m <- get_this ;;
              emit (EvConnect (_endpoint m)) ;;
              callback None
          end
      | _ =>
          let err := JsError "Interface not found!" in
          emit (EvError err) ;;
          callback (Some err)
      end
  | _ =>
      let err := JsError "Device not found!" in
      emit (EvError err) ;;
      callback (Some err)
  end.

(** ** [disconnect(callback)] *)

Definition disconnect (env : usb_env) : M unit :=
  m <- get_this ;;
  _ <- deref "stopPoll" (_endpoint m) ;;
  usb StopPoll (stopPoll_throws env) ;;
  (if is_linux env then
     _ <- deref "attachKernelDriver" (_interface m) ;;
     usb AttachKernelDriver (attachKernelDriver_throws env)
   else ret tt) ;;
  _ <- deref "release" (_interface m) ;;
  usb (Release true) None ;;
  let err := release_err env in
  match err with
  | Some e => emit (EvError e)
  | None => ret tt
  end ;;
  _ <- deref "close" (_device m) ;;
  usb Close (close_throws env) ;;
  emit EvDisconnect ;;
  callback err.

(** ** The ['data'] handler installed by [transfer] *)

(** [data[4] != 0x0d] and [decrypted[4] !== 0x0d]: on a number or
    [undefined] against a number the two operators agree. *)
Definition differs (v : option Z) (n : Z) : bool :=
  match v with
  | Some z => negb (z =? n)
  | None => true
  end.

(** [data[4] != 0x0d ? CO2Monitor._decrypt(this._key, data) : data] *)
Definition decode (key data : list Z) : list (option Z) :=
  if differs (JS.buf_get data 4) 0x0d then _decrypt key data
  else JS.of_buffer data.

(** [decrypted.slice(0, 3).reduce((s, item) => (s + item), 0) & 0xff]; the
    elements of [decrypted] are numbers on both branches of [decode]. *)
Definition sum3 (decrypted : list (option Z)) : Z :=
  JS.band
    (fold_left (fun s item => match item with Some v => s + v | None => s end)
               (firstn 3 decrypted) 0)
    0xff.

(** [decrypted[4] !== 0x0d || checksum !== sum] *)
Definition checksum_error (decrypted : list (option Z)) : bool :=
  differs (JS.arr_get decrypted 4) 0x0d
  || differs (JS.arr_get decrypted 3) (sum3 decrypted).

(** [decrypted[1] << 8 | decrypted[2]] *)
Definition value_of (decrypted : list (option Z)) : Z :=
  JS.bor (JS.shl (JS.arr_get decrypted 1) 8) (JS.int32_of (JS.arr_get decrypted 2)).

(** [op === n] *)
Definition is_op (op : option Z) (n : Z) : bool := negb (differs op n).

(** The handler from the checksum on, on the decoded frame.  Each reading is
    stored in its field and the stored value is emitted; [parseFloat] of a
    number gives the number back. *)
Definition on_frame (decrypted : list (option Z)) : M unit :=
  if checksum_error decrypted then
    emit (EvError (JsError "Checksum Error."))
  else
    let op := JS.arr_get decrypted 0 in
    let value := value_of decrypted in
    if is_op op 0x42 then
      let t := JS.toFixed2 (JS.num_of_Z value / 16 - 273.15)%float in
      update (set_temp t) ;;
      emit (EvTemp t)
    else if is_op op 0x50 then
      update (set_co2 value) ;;
      emit (EvCo2 value)
    else if is_op op 0x41 then
      let h := (JS.num_of_Z value / 100)%float in
      update (set_hum h) ;;
      emit (EvHum h)
    else ret tt.

Definition on_data (data : list Z) : M unit :=
  m <- get_this ;;
  on_frame (decode (_key m) data).

(** ** [transfer(callback)] *)

Definition transfer (env : usb_env) : M unit :=
  m <- get_this ;;
  _ <- deref "transfer" (_endpoint m) ;;
  usb (Transfer 8) None ;;
  match transfer_err env with
  | Some err =>
      emit (EvError err) ;;
      callback (Some err)
  | None =>
      usb (StartPoll 8) (startPoll_throws env) ;;
      usb (On "data") None ;;
      usb (On "error") None ;;
      callback None
  end.

(** A ['error'] from the endpoint is passed on. *)
Definition on_endpoint_error (err : error) : M unit := emit (EvError err).

(** ** Sessions, frames and library answers used in the statements *)

(** What the handler does to the session on a rejected frame. *)
Definition rejected (s : session) : outcome unit * session :=
  (Returned tt,
   {| this := this s;
      trace := trace s ++ [Emit (EvError (JsError "Checksum Error."))] |}).

(** The three frames of the opcode examples, with their checksum byte. *)
Definition temp_frame : list Z := [0x42; 0x11; 0x94; 0xE7; 0x0D; 0; 0; 0].
Definition co2_frame : list Z := [0x50; 0x02; 0x58; 0xAA; 0x0D; 0; 0; 0].
Definition hum_frame : list Z := [0x41; 0x13; 0x24; 0x78; 0x0D; 0; 0; 0].

(** The sensor as the library presents it: one interface with one endpoint,
    held by the kernel's HID driver. *)
Definition sensor : device :=
  {| interfaces :=
       [ {| kernelDriverActive := true; endpoints := [ {| address := 0x81 |} ] |} ] |}.

(** A device that offers no interface. *)
Definition bare_device : device := {| interfaces := [] |}.

(** [dev] is attached under the default identity 04D9:A052. *)
Definition attached (dev : device) (v p : jsval) : option device :=
  match v, p with
  | VNum x, VNum y =>
      if ((x =? 0x04D9)%float && (y =? 0xA052)%float)%bool then Some dev else None
  | _, _ => None
  end.

(** The library on [plat] with [dev] attached, where the handshake, the
    reattachment of the kernel driver and the release of the interface fail
    as given and every other call succeeds. *)
Definition usb_with (plat : string) (dev : device)
  (handshake reattach release : option error) : usb_env :=
  {| platform := plat;
     findByIds := attached dev;
     open_throws := None;
     detachKernelDriver_throws := None;
     controlTransfer_err := handshake;
     claim_throws := None;
     transfer_err := None;
     startPoll_throws := None;
     stopPoll_throws := None;
     attachKernelDriver_throws := reattach;
     release_err := release;
     close_throws := None |}.

(** The calls [connect] makes up to the handshake, once the device and its
    interface were found. *)
Definition handshake_calls (env : usb_env) (itf : interface) (key : list Z)
  : list action :=
  [Usb Open]
  ++ (if is_linux env then
        Usb IsKernelDriverActive
        :: (if kernelDriverActive itf then [Usb DetachKernelDriver] else [])
      else [])
  ++ [Usb (ControlTransfer 0x21 0x09 0x0300 0x00 key)].

(** A session connected to the sensor and polling it. *)
Definition polling_session : session :=
  let env := usb_with "linux" sensor None None None in
  snd (transfer env (snd (connect env (constructor None)))).

(** ** Bytes, reference forms and sequences used by the further properties *)

Definition is_byte (b : Z) : Prop := 0 <= b < 256.

(** The integers [z], [z + 1], ..., [z + n - 1]. *)
Fixpoint upto (n : nat) (z : Z) : list Z :=
  match n with
  | O => []
  | S k => z :: upto k (z + 1)
  end.

(** [P] holds on every pair of bytes. *)
Definition all_bytes2 (P : Z -> Z -> bool) : bool :=
  forallb (fun a => forallb (P a) (upto 256 0)) (upto 256 0).

(** A buffer cut or zero-filled to eight bytes. *)
Definition pad8 (b : list Z) : list Z := firstn 8 (b ++ repeat 0 8).

(** The second and third step of the cipher on one position, as arithmetic:
    [x] is the byte of the position and [p] the byte of the position before
    it after the first step, [c] the constant of the position. *)
Definition unmix (x p c : Z) : Z := (x / 8 + 32 * (p mod 8) - c) mod 256.

(** The cipher as arithmetic on eight key bytes and eight data bytes: undo
    the shuffle with the key, rotate the 64 bits right by three, subtract
    the nibble-swapped bytes of "Htemp99e". *)
Definition decrypt_spec (key data : list Z) : list Z :=
  match key, data with
  | [k0; k1; k2; k3; k4; k5; k6; k7], [d0; d1; d2; d3; d4; d5; d6; d7] =>
      let x0 := Z.lxor d2 k0 in
      let x1 := Z.lxor d4 k1 in
      let x2 := Z.lxor d0 k2 in
      let x3 := Z.lxor d7 k3 in
      let x4 := Z.lxor d1 k4 in
      let x5 := Z.lxor d6 k5 in
      let x6 := Z.lxor d5 k6 in
      let x7 := Z.lxor d3 k7 in
      [unmix x0 x7 0x84; unmix x1 x0 0x47; unmix x2 x1 0x56; unmix x3 x2 0xD6;
       unmix x4 x3 0x07; unmix x5 x4 0x93; unmix x6 x5 0x93; unmix x7 x6 0x56]
  | _, _ => []
  end.

(** The fields that describe the connection, and the cached readings. *)
Definition connection_of (m : monitor)
  : jsval * jsval * jsval * list Z * ref device * ref interface * ref endpoint :=
  (_vid m, _pid m, _debug m, _key m, _device m, _interface m, _endpoint m).

Definition readings_of (m : monitor) : option float * option Z * option float :=
  (_temp m, _co2 m, _hum m).



(** The library when no call fails. *)
Definition cooperative (env : usb_env) : Prop :=
  open_throws env = None
  /\ detachKernelDriver_throws env = None
  /\ controlTransfer_err env = None
  /\ claim_throws env = None
  /\ transfer_err env = None
  /\ startPoll_throws env = None
  /\ stopPoll_throws env = None
  /\ attachKernelDriver_throws env = None
  /\ release_err env = None
  /\ close_throws env = None.

(** What a successful [transfer] does. *)
Definition polling_calls : list action :=
  [Usb (Transfer 8); Usb (StartPoll 8); Usb (On "data"); Usb (On "error");
   Callback None].

(** What [disconnect] does when no call throws. *)
Definition teardown_calls (env : usb_env) : list action :=
  [Usb StopPoll]
  ++ (if is_linux env then [Usb AttachKernelDriver] else [])
  ++ [Usb (Release true)]
  ++ match release_err env with
     | Some e => [Emit (EvError e)]
     | None => []
     end
  ++ [Usb Close; Emit EvDisconnect; Callback (release_err env)].

(** The 'data' events of a poll, handled one after the other. *)
Definition feed (frames : list (list Z)) (s : session) : session :=
  fold_left (fun s data => snd (on_data data s)) frames s.

(** The opcode of a raw frame, when the frame passes the checksum. *)
Definition accepted_op (key data : list Z) : option Z :=
  let d := decode key data in
  if checksum_error d then None else JS.arr_get d 0.


Definition free_sensor : device :=
  {| interfaces :=
       [ {| kernelDriverActive := false; endpoints := [ {| address := 0x81 |} ] |} ] |}.

(** A list of eight elements, taken apart. *)
Ltac list8 l H :=
  do 8 (destruct l as [|? l]; [discriminate H|]);
  destruct l; [clear H|discriminate H].

(** The hypotheses of a [Forall] on an explicit list. *)
Ltac bytes8 H :=
  repeat match type of H with
         | Forall _ (_ :: _) =>
             let Hb := fresh "Hb" in
             let Ht := fresh "Ht" in
             pose proof (Forall_inv H) as Hb;
             pose proof (Forall_inv_tail H) as Ht;
             clear H; rename Ht into H
         end;
  clear H.

(** An explicit list of bytes. *)
Ltac bytes_ok :=
  repeat (apply Forall_cons; [unfold is_byte; lia|]); apply Forall_nil.

(** Unfolding of the monad, for running a method on a symbolic session. *)
Ltac run :=
  cbv [bind ret throw get_this update record emit callback usb deref];
  cbn [this trace fst snd _device _interface _endpoint _key
       set_device set_interface set_endpoint ref_of].

(** Case analysis on the answers of the library, innermost first. *)
Ltac branches :=
  repeat (match goal with
          | |- context [match ?x with _ => _ end] =>
              lazymatch x with
              | context [match _ with _ => _ end] => fail
              | _ => destruct x
              end
          end; run).

(** ** Arithmetic of the bitwise operators *)

Section Bitwise.

Lemma to_int32_small (z : Z) : - 2 ^ 31 <= z < 2 ^ 31 -> JS.to_int32 z = z.
Proof.
  intros Hz. unfold JS.to_int32.
  rewrite Z.mod_small by lia. lia.
Qed.

Lemma to_int32_mod256 (z : Z) : JS.to_int32 z mod 256 = z mod 256.
Proof.
  unfold JS.to_int32.
  change (2 ^ 32) with 4294967296. change (2 ^ 31) with 2147483648.
  Z.div_mod_to_equations. lia.
Qed.

(** [x & 0xff] is the low byte of [x], whatever the size of [x]. *)
Lemma band_ff (x : Z) : JS.band x 0xff = x mod 256.
Proof.
  unfold JS.band.
  rewrite (to_int32_small 0xff) by (cbv; split; congruence).
  change 0xff with (Z.ones 8).
  rewrite Z.land_ones by lia.
  change (2 ^ 8) with 256. apply to_int32_mod256.
Qed.

Lemma band_ff_range (x : Z) : 0 <= JS.band x 0xff < 256.
Proof. rewrite band_ff. apply Z.mod_pos_bound. lia. Qed.

End Bitwise.

(** ** Shape of the decoded frame *)

Lemma differs_spec (v : option Z) (n : Z) : differs v n = false <-> v = Some n.
Proof.
  destruct v as [z|]; simpl.
  - rewrite negb_false_iff, Z.eqb_eq. split; congruence.
  - split; discriminate.
Qed.

(** [_decrypt] always returns eight numbers, each the low byte computed by
    the third loop. *)
Lemma _decrypt_shape (key data : list Z) :
  exists f : nat -> Z,
    _decrypt key data = JS.of_buffer (map f (seq 0 8))
    /\ forall i, 0 <= f i < 256.
Proof.
  eexists (fun i => match JS.arr_get _ i with
                    | Some v => JS.band (0x100 + v - ctmp i) 0xff
                    | None => 0
                    end).
  split.
  - unfold _decrypt. cbn [List.length cstate seq fold_left map JS.of_buffer].
    unfold sub_step at 1 2 3 4 5 6 7 8. cbn [JS.arr_set].
    reflexivity.
  - intros i. cbv beta. destruct (JS.arr_get _ i); [apply band_ff_range|lia].
Qed.

(** Every raw frame of eight bytes decodes to eight numbers. *)
Lemma decode_frame8 (key data : list Z) :
  List.length data = 8%nat ->
  exists b0 b1 b2 b3 b4 b5 b6 b7,
    decode key data = JS.of_buffer [b0; b1; b2; b3; b4; b5; b6; b7].
Proof.
  intros Hlen. unfold decode.
  destruct (differs (JS.buf_get data 4) 0x0d).
  - destruct (_decrypt_shape key data) as [f [Hf _]].
    rewrite Hf. cbn [seq map]. repeat eexists.
  - do 8 (destruct data as [|? data]; [discriminate Hlen|]).
    destruct data; [|discriminate Hlen].
    repeat eexists.
Qed.

(** The checksum of a frame of eight numbers. *)
Lemma sum3_frame8 (b0 b1 b2 b3 b4 b5 b6 b7 : Z) :
  sum3 (JS.of_buffer [b0; b1; b2; b3; b4; b5; b6; b7]) = (b0 + b1 + b2) mod 256.
Proof. unfold sum3. rewrite band_ff. reflexivity. Qed.

Lemma checksum_error_frame8 (b0 b1 b2 b3 b4 b5 b6 b7 : Z) :
  checksum_error (JS.of_buffer [b0; b1; b2; b3; b4; b5; b6; b7]) = false
  <-> b4 = 0x0D /\ b3 = (b0 + b1 + b2) mod 256.
Proof.
  unfold checksum_error. rewrite orb_false_iff, !differs_spec, sum3_frame8.
  cbn [JS.arr_get JS.of_buffer map nth_error].
  split; intros [H4 H3]; split; congruence.
Qed.

Lemma on_frame_rejected (d : list (option Z)) (s : session) :
  checksum_error d = true -> on_frame d s = rejected s.
Proof. intros H. unfold on_frame. rewrite H. reflexivity. Qed.

(** The events of a dispatched frame: none of them is an error. *)
Lemma on_frame_accepted (d : list (option Z)) (s : session) :
  checksum_error d = false ->
  exists evs,
    trace (snd (on_frame d s)) = trace s ++ evs
    /\ forall e, ~ In (Emit (EvError e)) evs.
Proof.
  intros H. unfold on_frame. rewrite H.
  destruct (is_op (JS.arr_get d 0) 0x42);
    [|destruct (is_op (JS.arr_get d 0) 0x50);
      [|destruct (is_op (JS.arr_get d 0) 0x41)]];
    cbn; eexists; (split; [try reflexivity|]).
  4: symmetry; apply app_nil_r.
  all: intros e [He|[]] || intros e []; discriminate He.
Qed.

(** ** Theorems *)

(** C1. Decrypting the all-zero raw frame with the key
    C4 C6 C0 92 40 23 DC 96 gives the bytes 54 51 82 3C 41 71 E8 3C. *)
Theorem decrypt_zero_frame :
  _decrypt fixed_key [0; 0; 0; 0; 0; 0; 0; 0]
  = JS.of_buffer [0x54; 0x51; 0x82; 0x3C; 0x41; 0x71; 0xE8; 0x3C].
Proof. vm_compute. reflexivity. Qed.

(** C2. Whenever the decoded frame of a raw frame is the eight bytes
    b0 .. b7, the data handler goes on to the opcode dispatch if and only if
    b4 is 0x0D and b3 is (b0 + b1 + b2) mod 256.  Otherwise it emits the
    'Checksum Error.' error and nothing else, and leaves every field of the
    session, the three cached readings among them, as it was.  A frame that
    passes emits no error. *)
Theorem validation_gate (s : session) (data : list Z)
  (b0 b1 b2 b3 b4 b5 b6 b7 : Z) :
  decode (_key (this s)) data = JS.of_buffer [b0; b1; b2; b3; b4; b5; b6; b7] ->
  let d := decode (_key (this s)) data in
  let s' := snd (on_data data s) in
  (checksum_error d = false <-> b4 = 0x0D /\ b3 = (b0 + b1 + b2) mod 256)
  /\ (checksum_error d = true ->
      fst (on_data data s) = Returned tt
      /\ this s' = this s
      /\ temperature (this s') = temperature (this s)
      /\ co2 (this s') = co2 (this s)
      /\ humidity (this s') = humidity (this s)
      /\ trace s' = trace s ++ [Emit (EvError (JsError "Checksum Error."))])
  /\ (checksum_error d = false ->
      on_data data s = on_frame d s
      /\ exists evs, trace s' = trace s ++ evs
                     /\ forall e, ~ In (Emit (EvError e)) evs).
Proof.
  intros Hd d s'.
  assert (Hrun : on_data data s = on_frame d s) by reflexivity.
  subst s'. rewrite Hrun. subst d. rewrite Hd.
  split; [apply checksum_error_frame8|]. split.
  - intros Hbad. rewrite (on_frame_rejected _ s Hbad). cbn.
    repeat split; reflexivity.
  - intros Hok. split; [reflexivity|]. apply on_frame_accepted, Hok.
Qed.

Lemma validation_gate_witness :
  decode fixed_key [0; 0; 0; 0; 0; 0; 0; 0]
  = JS.of_buffer [0x54; 0x51; 0x82; 0x3C; 0x41; 0x71; 0xE8; 0x3C]
  /\ trace (snd (on_data [0; 0; 0; 0; 0; 0; 0; 0] (constructor None)))
     = trace (constructor None) ++ [Emit (EvError (JsError "Checksum Error."))].
Proof.
  split; [vm_compute; reflexivity|].
  apply (validation_gate (constructor None) [0; 0; 0; 0; 0; 0; 0; 0]
           0x54 0x51 0x82 0x3C 0x41 0x71 0xE8 0x3C);
    vm_compute; reflexivity.
Defined.

(** C3. A raw frame of eight bytes whose byte 4 is 0x0D is not decrypted:
    the decoded frame is the raw frame itself.  The checksum is still
    checked: the frame is dispatched exactly when byte 3 is the low byte of
    the sum of bytes 0 to 2, and is rejected with the checksum error
    otherwise. *)
Theorem plaintext_bypass (s : session) (data : list Z) :
  List.length data = 8%nat ->
  JS.buf_get data 4 = Some 0x0D ->
  decode (_key (this s)) data = JS.of_buffer data
  /\ on_data data s = on_frame (JS.of_buffer data) s
  /\ (checksum_error (JS.of_buffer data) = false
      <-> JS.buf_get data 3
          = Some ((nth 0 data 0 + nth 1 data 0 + nth 2 data 0) mod 256))
  /\ (checksum_error (JS.of_buffer data) = true -> on_data data s = rejected s).
Proof.
  intros Hlen H4.
  assert (Hdec : forall key, decode key data = JS.of_buffer data).
  { intros key. unfold decode. rewrite H4. reflexivity. }
  assert (Hrun : on_data data s = on_frame (JS.of_buffer data) s).
  { unfold on_data, bind, get_this. rewrite Hdec. reflexivity. }
  split; [apply Hdec|]. split; [exact Hrun|]. split.
  - do 8 (destruct data as [|? data]; [discriminate Hlen|]).
    destruct data; [|discriminate Hlen].
    rewrite checksum_error_frame8.
    cbn in H4 |- *. injection H4 as ->.
    split; [intros [_ ->]; reflexivity|intros [= ->]; split; reflexivity].
  - intros Hbad. rewrite Hrun. apply on_frame_rejected, Hbad.
Qed.

Lemma plaintext_bypass_witness :
  on_data [0x50; 0x02; 0x58; 0x00; 0x0D; 0; 0; 0] (constructor None)
  = rejected (constructor None).
Proof.
  apply (plaintext_bypass (constructor None) [0x50; 0x02; 0x58; 0x00; 0x0D; 0; 0; 0]);
    reflexivity.
Defined.

Lemma example_frames_valid :
  checksum_error (JS.of_buffer temp_frame) = false
  /\ value_of (JS.of_buffer temp_frame) = 4500
  /\ checksum_error (JS.of_buffer co2_frame) = false
  /\ value_of (JS.of_buffer co2_frame) = 600
  /\ checksum_error (JS.of_buffer hum_frame) = false
  /\ value_of (JS.of_buffer hum_frame) = 4900.
Proof. vm_compute. repeat split; reflexivity. Qed.

(** C4, as the claim states it: opcode 0x42 with value 4500 does not cache
    the temperature 7.10, so the three readings of the claim do not hold
    together. *)
Lemma opcode_examples_temperature_not_7_10 :
  ~ (temperature (this (snd (on_data temp_frame (constructor None))))
     = Some 7.10%float
     /\ co2 (this (snd (on_data co2_frame (constructor None)))) = Some 600
     /\ humidity (this (snd (on_data hum_frame (constructor None))))
        = Some 49.0%float).
Proof.
  intros [Ht _].
  apply (f_equal (option_map Prim2SF)) in Ht.
  vm_compute in Ht. discriminate Ht.
Qed.

(** C4, amended: on any session, opcode 0x42 with value 4500 caches the
    temperature 8.10 (4500/16 - 273.15 to two decimals), opcode 0x50 with
    value 600 caches the CO2 reading 600, and opcode 0x41 with value 4900
    caches the humidity 49.0; each emits its reading. *)
Theorem opcode_examples (s : session) :
  let st := snd (on_data temp_frame s) in
  let sc := snd (on_data co2_frame s) in
  let sh := snd (on_data hum_frame s) in
  (temperature (this st) = Some 8.10%float
   /\ trace st = trace s ++ [Emit (EvTemp 8.10%float)])
  /\ (co2 (this sc) = Some 600
      /\ trace sc = trace s ++ [Emit (EvCo2 600)])
  /\ (humidity (this sh) = Some 49.0%float
      /\ trace sh = trace s ++ [Emit (EvHum 49.0%float)]).
Proof.
  repeat split; vm_compute; reflexivity.
Qed.

(** The dispatch on a frame that passed the checksum, opcode by opcode. *)
Lemma on_frame_dispatch (d : list (option Z)) (s : session) :
  checksum_error d = false ->
  let op := JS.arr_get d 0 in
  let value := value_of d in
  let t := JS.toFixed2 (JS.num_of_Z value / 16 - 273.15)%float in
  let h := (JS.num_of_Z value / 100)%float in
  on_frame d s =
  (Returned tt,
   if is_op op 0x42 then
     {| this := set_temp t (this s); trace := trace s ++ [Emit (EvTemp t)] |}
   else if is_op op 0x50 then
     {| this := set_co2 value (this s); trace := trace s ++ [Emit (EvCo2 value)] |}
   else if is_op op 0x41 then
     {| this := set_hum h (this s); trace := trace s ++ [Emit (EvHum h)] |}
   else s).
Proof.
  intros H. unfold on_frame. rewrite H. cbv zeta.
  destruct (is_op (JS.arr_get d 0) 0x42); [reflexivity|].
  destruct (is_op (JS.arr_get d 0) 0x50); [reflexivity|].
  destruct (is_op (JS.arr_get d 0) 0x41); reflexivity.
Qed.

Lemma is_op_spec (op : option Z) (n : Z) : is_op op n = true <-> op = Some n.
Proof. unfold is_op. rewrite negb_true_iff. apply differs_spec. Qed.

(** C5. A frame that passed the checksum returns normally, changes at most
    one of the three cached readings and emits at most one event, never an
    error: opcode 0x42 stores and emits the temperature and leaves co2 and
    humidity alone, 0x50 does so for co2, 0x41 for humidity, and any other
    opcode changes nothing and emits nothing. *)
Theorem one_reading_per_frame (d : list (option Z)) (s : session) :
  checksum_error d = false ->
  let op := JS.arr_get d 0 in
  let s' := snd (on_frame d s) in
  fst (on_frame d s) = Returned tt
  /\ exists evs,
      trace s' = trace s ++ evs
      /\ (List.length evs <= 1)%nat
      /\ (forall e, ~ In (Emit (EvError e)) evs)
      /\ ((co2 (this s') = co2 (this s) /\ humidity (this s') = humidity (this s))
          \/ (temperature (this s') = temperature (this s)
              /\ humidity (this s') = humidity (this s))
          \/ (temperature (this s') = temperature (this s)
              /\ co2 (this s') = co2 (this s)))
      /\ (op = Some 0x42 ->
          exists t, evs = [Emit (EvTemp t)]
                    /\ temperature (this s') = Some t
                    /\ co2 (this s') = co2 (this s)
                    /\ humidity (this s') = humidity (this s))
      /\ (op = Some 0x50 ->
          exists v, evs = [Emit (EvCo2 v)]
                    /\ co2 (this s') = Some v
                    /\ temperature (this s') = temperature (this s)
                    /\ humidity (this s') = humidity (this s))
      /\ (op = Some 0x41 ->
          exists h, evs = [Emit (EvHum h)]
                    /\ humidity (this s') = Some h
                    /\ temperature (this s') = temperature (this s)
                    /\ co2 (this s') = co2 (this s))
      /\ (op <> Some 0x42 -> op <> Some 0x50 -> op <> Some 0x41 ->
          evs = [] /\ this s' = this s).
Proof.
  intros H op s'. subst s'.
  rewrite (on_frame_dispatch d s H). cbv zeta. fold op.
  split; [reflexivity|].
  destruct (is_op op 0x42) eqn:E42;
    [|destruct (is_op op 0x50) eqn:E50; [|destruct (is_op op 0x41) eqn:E41]].
  - apply is_op_spec in E42. eexists. split; [reflexivity|].
    split; [apply Nat.le_refl|]. split; [intros e [He|[]]; discriminate He|].
    split; [left; split; reflexivity|]. rewrite E42.
    split; [intros _; eexists; repeat split; reflexivity|].
    split; [discriminate|]. split; [discriminate|].
    intros C; contradiction C; reflexivity.
  - apply is_op_spec in E50. eexists. split; [reflexivity|].
    split; [apply Nat.le_refl|]. split; [intros e [He|[]]; discriminate He|].
    split; [right; left; split; reflexivity|]. rewrite E50.
    split; [discriminate|].
    split; [intros _; eexists; repeat split; reflexivity|].
    split; [discriminate|].
    intros _ C; contradiction C; reflexivity.
  - apply is_op_spec in E41. eexists. split; [reflexivity|].
    split; [apply Nat.le_refl|]. split; [intros e [He|[]]; discriminate He|].
    split; [right; right; split; reflexivity|]. rewrite E41.
    split; [discriminate|]. split; [discriminate|].
    split; [intros _; eexists; repeat split; reflexivity|].
    intros _ _ C; contradiction C; reflexivity.
  - exists []. split; [symmetry; apply app_nil_r|].
    split; [apply Nat.le_0_l|]. split; [intros e []|].
    split; [left; split; reflexivity|].
    split; [intros C; apply is_op_spec in C; congruence|].
    split; [intros C; apply is_op_spec in C; congruence|].
    split; [intros C; apply is_op_spec in C; congruence|].
    intros _ _ _. split; reflexivity.
Qed.

Lemma one_reading_per_frame_witness :
  checksum_error (JS.of_buffer co2_frame) = false
  /\ fst (on_frame (JS.of_buffer co2_frame) (constructor None)) = Returned tt.
Proof.
  split; [vm_compute; reflexivity|].
  apply (one_reading_per_frame (JS.of_buffer co2_frame) (constructor None)).
  vm_compute; reflexivity.
Defined.

(** ** The connection life cycle *)

Lemma connect_handshake_failure_run (env : usb_env) (s : session)
  (dev : device) (itf : interface) (err : error) :
  findByIds env (_vid (this s)) (_pid (this s)) = Some dev ->
  nth_error (interfaces dev) 0 = Some itf ->
  open_throws env = None ->
  detachKernelDriver_throws env = None ->
  controlTransfer_err env = Some err ->
  connect env s =
  (Returned tt,
   {| this := set_interface (Obj itf) (set_device (Obj dev) (this s));
      trace := trace s
               ++ handshake_calls env itf (_key (this s))
               ++ [Emit (EvError err); Callback (Some err)] |}).
Proof.
  intros Hfind Hitf Hopen Hdetach Herr.
  unfold connect, handshake_calls. run.
  rewrite Hfind. run. rewrite Hopen, Hitf. run.
  destruct (is_linux env); [destruct (kernelDriverActive itf)|];
    run; rewrite ?Hdetach, Herr; run;
    rewrite <- ?app_assoc; reflexivity.
Qed.

Lemma handshake_calls_quiet (env : usb_env) (itf : interface) (key : list Z) :
  ~ In (Usb Claim) (handshake_calls env itf key)
  /\ forall ev, ~ In (Emit ev) (handshake_calls env itf key).
Proof.
  unfold handshake_calls.
  destruct (is_linux env); [destruct (kernelDriverActive itf)|]; cbn;
    (split; [|intros ev]); intuition discriminate.
Qed.

(** C6, as the claim states it: on a new session whose handshake fails, the
    device, interface and endpoint fields are not all what they were before
    the call. *)
Lemma connect_handshake_failure_changes_fields :
  let env := usb_with "linux" sensor (Some (UsbError (-9))) None None in
  let s := constructor None in
  let s' := snd (connect env s) in
  controlTransfer_err env = Some (UsbError (-9))
  /\ ~ (_device (this s') = _device (this s)
        /\ _interface (this s') = _interface (this s)
        /\ _endpoint (this s') = _endpoint (this s)).
Proof.
  cbv zeta. split; [reflexivity|].
  intros [Hdev _]. vm_compute in Hdev. discriminate Hdev.
Qed.

(** C6, amended: when the handshake fails, [connect] returns after emitting
    the error and calling back with it; it emits no 'connect', does not
    claim the interface, and leaves the endpoint field and the cached
    readings as they were.  The device and interface fields hold the device
    that was found and its first interface. *)
Theorem connect_handshake_failure (env : usb_env) (s : session)
  (dev : device) (itf : interface) (err : error) :
  findByIds env (_vid (this s)) (_pid (this s)) = Some dev ->
  nth_error (interfaces dev) 0 = Some itf ->
  open_throws env = None ->
  detachKernelDriver_throws env = None ->
  controlTransfer_err env = Some err ->
  let s' := snd (connect env s) in
  fst (connect env s) = Returned tt
  /\ (exists calls,
        trace s' = trace s ++ calls ++ [Emit (EvError err); Callback (Some err)]
        /\ ~ In (Usb Claim) calls
        /\ forall ev, ~ In (Emit ev) calls)
  /\ _endpoint (this s') = _endpoint (this s)
  /\ _device (this s') = Obj dev
  /\ _interface (this s') = Obj itf
  /\ temperature (this s') = temperature (this s)
  /\ co2 (this s') = co2 (this s)
  /\ humidity (this s') = humidity (this s).
Proof.
  intros Hfind Hitf Hopen Hdetach Herr s'. subst s'.
  rewrite (connect_handshake_failure_run env s dev itf err) by assumption.
  cbn [fst snd this trace].
  split; [reflexivity|]. split; [|repeat split; reflexivity].
  exists (handshake_calls env itf (_key (this s))).
  split; [reflexivity|]. apply handshake_calls_quiet.
Qed.

Lemma connect_handshake_failure_witness :
  let env := usb_with "linux" sensor (Some (UsbError (-9))) None None in
  controlTransfer_err env = Some (UsbError (-9))
  /\ fst (connect env (constructor None)) = Returned tt.
Proof.
  cbv zeta. split; [reflexivity|].
  apply (connect_handshake_failure
           (usb_with "linux" sensor (Some (UsbError (-9))) None None)
           (constructor None) sensor
           {| kernelDriverActive := true; endpoints := [ {| address := 0x81 |} ] |}
           (UsbError (-9)));
    reflexivity.
Defined.

(** Off Linux, a device without an interface is reported: the error event
    'Interface not found!' and the callback with that error. *)
Lemma connect_without_interface_elsewhere (env : usb_env) (s : session)
  (dev : device) :
  is_linux env = false ->
  findByIds env (_vid (this s)) (_pid (this s)) = Some dev ->
  interfaces dev = [] ->
  open_throws env = None ->
  connect env s =
  (Returned tt,
   {| this := set_interface Undefined (set_device (Obj dev) (this s));
      trace := trace s
               ++ [Usb Open; Emit (EvError (JsError "Interface not found!"));
                   Callback (Some (JsError "Interface not found!"))] |}).
Proof.
  intros Hlinux Hfind Hitf Hopen.
  unfold connect. run. rewrite Hfind. run. rewrite Hopen, Hitf, Hlinux.
  cbn [nth_error]. run.
  rewrite <- !app_assoc. reflexivity.
Qed.

(** C7, on the code: on Linux, [connect] on a device that opens but offers
    no interface throws a TypeError at [this._interface.isKernelDriverActive]
    before the check of the interface is reached; no error event is emitted
    and the callback is not called. *)
Theorem connect_without_interface_linux (env : usb_env) (s : session)
  (dev : device) :
  is_linux env = true ->
  findByIds env (_vid (this s)) (_pid (this s)) = Some dev ->
  interfaces dev = [] ->
  open_throws env = None ->
  connect env s =
  (Thrown (JsTypeError "isKernelDriverActive"),
   {| this := set_interface Undefined (set_device (Obj dev) (this s));
      trace := trace s ++ [Usb Open] |}).
Proof.
  intros Hlinux Hfind Hitf Hopen.
  unfold connect. run. rewrite Hfind. run. rewrite Hopen, Hitf, Hlinux.
  cbn [nth_error]. run.
  reflexivity.
Qed.

Lemma connect_without_interface_linux_witness :
  let env := usb_with "linux" bare_device None None None in
  is_linux env = true
  /\ fst (connect env (constructor None))
     = Thrown (JsTypeError "isKernelDriverActive")
  /\ trace (snd (connect env (constructor None))) = [ConsoleLog; Usb Open].
Proof.
  cbv zeta. split; [reflexivity|].
  rewrite (connect_without_interface_linux
             (usb_with "linux" bare_device None None None)
             (constructor None) bare_device);
    try reflexivity.
  split; reflexivity.
Defined.

(** C8, on the code: [disconnect] on a session that was never connected
    throws a TypeError at [this._endpoint.stopPoll]; nothing is emitted and
    the callback is not called. *)
Theorem disconnect_never_connected (env : usb_env) (o : option options) :
  disconnect env (constructor o)
  = (Thrown (JsTypeError "stopPoll"), constructor o).
Proof. destruct o; reflexivity. Qed.

(** The teardown when only the release of the interface fails: the error is
    emitted, the device is closed, 'disconnect' is emitted and the callback
    gets the error. *)
Lemma disconnect_release_failure (env : usb_env) (s : session)
  (dev : device) (itf : interface) (ep : endpoint) (err : error) :
  _device (this s) = Obj dev ->
  _interface (this s) = Obj itf ->
  _endpoint (this s) = Obj ep ->
  stopPoll_throws env = None ->
  attachKernelDriver_throws env = None ->
  close_throws env = None ->
  release_err env = Some err ->
  disconnect env s =
  (Returned tt,
   {| this := this s;
      trace := trace s
               ++ [Usb StopPoll]
               ++ (if is_linux env then [Usb AttachKernelDriver] else [])
               ++ [Usb (Release true); Emit (EvError err); Usb Close;
                   Emit EvDisconnect; Callback (Some err)] |}).
Proof.
  intros Hdev Hitf Hep Hstop Hattach Hclose Hrel.
  unfold disconnect. run. rewrite Hep, Hstop, Hitf, Hdev. run.
  destruct (is_linux env); run;
    rewrite ?Hattach, Hrel, Hclose; run;
    rewrite <- ?app_assoc; reflexivity.
Qed.

(** C9, on the code: on Linux, when the reattachment of the kernel driver
    fails during [disconnect] on a connected session, the error leaves the
    method after the calls to [stopPoll] and [attachKernelDriver]: the
    interface is not released, the device is not closed, 'disconnect' is not
    emitted and the callback is not called. *)
Theorem disconnect_reattach_failure (env : usb_env) (s : session)
  (dev : device) (itf : interface) (ep : endpoint) (err : error) :
  _device (this s) = Obj dev ->
  _interface (this s) = Obj itf ->
  _endpoint (this s) = Obj ep ->
  is_linux env = true ->
  stopPoll_throws env = None ->
  attachKernelDriver_throws env = Some err ->
  disconnect env s =
  (Thrown err,
   {| this := this s;
      trace := trace s ++ [Usb StopPoll; Usb AttachKernelDriver] |}).
Proof.
  intros Hdev Hitf Hep Hlinux Hstop Hattach.
  unfold disconnect. run. rewrite Hep, Hstop, Hitf, Hlinux. run.
  rewrite Hattach. rewrite <- ?app_assoc. reflexivity.
Qed.

Lemma disconnect_reattach_failure_witness :
  let env := usb_with "linux" sensor None (Some (UsbError (-6))) None in
  attachKernelDriver_throws env = Some (UsbError (-6))
  /\ fst (disconnect env polling_session) = Thrown (UsbError (-6))
  /\ ~ In (Emit EvDisconnect) (trace (snd (disconnect env polling_session))).
Proof.
  cbv zeta. split; [reflexivity|].
  rewrite (disconnect_reattach_failure
             (usb_with "linux" sensor None (Some (UsbError (-6))) None)
             polling_session sensor
             {| kernelDriverActive := true; endpoints := [ {| address := 0x81 |} ] |}
             {| address := 0x81 |} (UsbError (-6)));
    try reflexivity.
  split; [reflexivity|].
  vm_compute. intuition discriminate.
Defined.

(** C10. A vendor or product id given in the options but falsy falls back to
    the default 0x04D9, respectively 0xA052; whatever the options, neither
    id of the session is a zero. *)
Theorem falsy_ids_fall_back (o : option options) :
  (forall r, o = Some r -> truthy (vid r) = false ->
             _vid (this (constructor o)) = VNum 0x04D9)
  /\ (forall r, o = Some r -> truthy (pid r) = false ->
                _pid (this (constructor o)) = VNum 0xA052)
  /\ (forall x, is_zero x = true ->
                _vid (this (constructor o)) <> VNum x
                /\ _pid (this (constructor o)) <> VNum x).
Proof.
  split; [|split].
  - intros r -> Hv. cbn. unfold or_default. rewrite Hv. reflexivity.
  - intros r -> Hp. cbn. unfold or_default. rewrite Hp. reflexivity.
  - intros x Hx.
    assert (Hfalsy : truthy (VNum x) = false) by (unfold truthy; rewrite Hx; reflexivity).
    assert (Hdflt : forall y, is_zero y = false -> VNum y <> VNum x).
    { intros y Hy E. apply (f_equal (fun v => match v with
                                              | VNum z => is_zero z
                                              | _ => false
                                              end)) in E.
      congruence. }
    cbn. unfold or_default. destruct o as [r|].
    + split.
      * destruct (truthy (vid r)) eqn:E; [congruence|].
        apply Hdflt. reflexivity.
      * destruct (truthy (pid r)) eqn:E; [congruence|].
        apply Hdflt. reflexivity.
    + split; apply Hdflt; reflexivity.
Qed.

Lemma falsy_ids_fall_back_witness :
  let o := Some {| vid := VNum 0; pid := VNum 0; debug := VUndefined |} in
  _vid (this (constructor o)) = VNum 0x04D9
  /\ _pid (this (constructor o)) = VNum 0xA052.
Proof.
  cbv zeta.
  destruct (falsy_ids_fall_back
              (Some {| vid := VNum 0; pid := VNum 0; debug := VUndefined |}))
    as [Hvid [Hpid _]].
  split; [eapply Hvid|eapply Hpid]; reflexivity.
Defined.

(** ** Further properties of the cipher *)

Lemma In_upto (n : nat) (z x : Z) : z <= x < z + Z.of_nat n -> In x (upto n z).
Proof.
  revert z. induction n as [|n IH]; intros z Hx; [lia|].
  cbn [upto]. destruct (Z.eq_dec z x) as [->|Hne]; [left; reflexivity|].
  right. apply IH. lia.
Qed.

(** A check that passes on the 65536 pairs holds for all bytes. *)
Lemma all_bytes2_spec (P : Z -> Z -> bool) :
  all_bytes2 P = true ->
  forall a b, is_byte a -> is_byte b -> P a b = true.
Proof.
  unfold all_bytes2, is_byte. intros H a b Ha Hb.
  rewrite forallb_forall in H.
  assert (Ha' : In a (upto 256 0)) by (apply In_upto; lia).
  specialize (H a Ha'). rewrite forallb_forall in H.
  apply H, In_upto. lia.
Qed.

Lemma int32_of_byte (b : Z) : is_byte b -> JS.int32_of (Some b) = b.
Proof. unfold is_byte. intros Hb. apply to_int32_small. lia. Qed.

Lemma xor_bytes (a k : Z) :
  is_byte a -> is_byte k ->
  JS.xor (Some a) (Some k) = Z.lxor a k /\ is_byte (Z.lxor a k).
Proof.
  intros Ha Hk. unfold JS.xor. rewrite !int32_of_byte by assumption.
  split; [reflexivity|].
  assert (H : (0 <=? Z.lxor a k) && (Z.lxor a k <? 256) = true).
  { revert a k Ha Hk. apply all_bytes2_spec. vm_compute. reflexivity. }
  rewrite andb_true_iff, Z.leb_le, Z.ltb_lt in H. exact H.
Qed.

Lemma shr_byte (x : Z) : is_byte x -> JS.shr (Some x) 3 = x / 8.
Proof.
  intros Hx. unfold JS.shr. rewrite int32_of_byte by assumption.
  change (3 mod 32) with 3. rewrite Z.shiftr_div_pow2 by lia. reflexivity.
Qed.

Lemma shl_byte (p n : Z) :
  is_byte p -> 0 <= n <= 8 -> JS.shl (Some p) n = p * 2 ^ n.
Proof.
  unfold is_byte. intros Hp Hn. unfold JS.shl.
  rewrite int32_of_byte by assumption.
  rewrite (Z.mod_small n 32) by lia. rewrite Z.shiftl_mul_pow2 by lia.
  assert (0 < 2 ^ n <= 2 ^ 8).
  { split; [apply Z.pow_pos_nonneg; lia|apply Z.pow_le_mono_r; lia]. }
  apply to_int32_small. change (2 ^ 8) with 256 in *. nia.
Qed.

Lemma bor_small (a b : Z) :
  0 <= a < 2 ^ 16 -> 0 <= b < 2 ^ 16 -> JS.bor a b = Z.lor a b.
Proof.
  intros Ha Hb. unfold JS.bor.
  rewrite !to_int32_small by lia. reflexivity.
Qed.

(** The second loop on bytes: the high five bits of [x] under the low three
    bits of [p]. *)
Lemma mix_bytes (x p : Z) :
  is_byte x -> is_byte p ->
  JS.band (JS.bor (JS.shr (Some x) 3) (JS.shl (Some p) 5)) 0xff
  = x / 8 + 32 * (p mod 8).
Proof.
  intros Hx Hp.
  rewrite shr_byte, (shl_byte p 5), band_ff by (assumption || lia).
  change (2 ^ 5) with 32.
  assert (Hq : 0 <= x / 8 < 32)
    by (unfold is_byte in Hx; split;
        [apply Z.div_pos; lia|apply Z.div_lt_upper_bound; lia]).
  rewrite bor_small by (unfold is_byte in Hp; lia).
  clear Hq.
  apply Z.eqb_eq. revert x p Hx Hp.
  apply all_bytes2_spec. vm_compute. reflexivity.
Qed.

(** [hi << 8 | lo] on bytes. *)
Lemma value_bytes (hi lo : Z) :
  is_byte hi -> is_byte lo ->
  JS.bor (JS.shl (Some hi) 8) (JS.int32_of (Some lo)) = 256 * hi + lo.
Proof.
  intros Hh Hl.
  rewrite (shl_byte hi 8), int32_of_byte by (assumption || lia).
  change (2 ^ 8) with 256.
  rewrite bor_small by (unfold is_byte in *; lia).
  apply Z.eqb_eq. revert hi lo Hh Hl.
  apply all_bytes2_spec. vm_compute. reflexivity.
Qed.

Lemma mod256_bias (z c : Z) : (0x100 + z - c) mod 256 = (z - c) mod 256.
Proof. Z.div_mod_to_equations. lia. Qed.

Lemma lxor_cancel (a b k : Z) : Z.lxor a k = Z.lxor b k -> a = b.
Proof.
  intros H. apply (f_equal (fun z => Z.lxor z k)) in H.
  rewrite !Z.lxor_assoc, Z.lxor_nilpotent, !Z.lxor_0_r in H. exact H.
Qed.

Lemma unmix_byte (x p c : Z) : is_byte (unmix x p c).
Proof. unfold is_byte, unmix. apply Z.mod_pos_bound. lia. Qed.

Lemma unmix_inj (x x' p p' c : Z) :
  is_byte x -> is_byte x' -> is_byte p -> is_byte p' ->
  unmix x p c = unmix x' p' c -> x / 8 = x' / 8 /\ p mod 8 = p' mod 8.
Proof.
  unfold is_byte, unmix. intros Hx Hx' Hp Hp' H.
  Z.div_mod_to_equations. lia.
Qed.

Lemma byte_of_parts (x x' : Z) :
  x / 8 = x' / 8 -> x mod 8 = x' mod 8 -> x = x'.
Proof. intros Hq Hr. Z.div_mod_to_equations. lia. Qed.

(** The three loops on eight key bytes and eight data bytes. *)
Lemma decrypt_spec_bytes (key data : list Z) :
  List.length key = 8%nat -> List.length data = 8%nat ->
  Forall is_byte key -> Forall is_byte data ->
  _decrypt key data = JS.of_buffer (decrypt_spec key data).
Proof.
  intros Hk Hd Bk Bd. list8 key Hk. list8 data Hd. bytes8 Bk. bytes8 Bd.
  unfold _decrypt. cbn [List.length cstate seq fold_left].
  unfold xor_step. cbn [nth shuffle JS.arr_set JS.buf_get nth_error].
  unfold mix_step.
  change (prev_index 0) with 7%nat. change (prev_index 1) with 0%nat.
  change (prev_index 2) with 1%nat. change (prev_index 3) with 2%nat.
  change (prev_index 4) with 3%nat. change (prev_index 5) with 4%nat.
  change (prev_index 6) with 5%nat. change (prev_index 7) with 6%nat.
  cbn [JS.arr_set JS.arr_get nth_error].
  unfold sub_step. cbn [JS.arr_set JS.arr_get nth_error].
  change (ctmp 0) with 0x84. change (ctmp 1) with 0x47.
  change (ctmp 2) with 0x56. change (ctmp 3) with 0xD6.
  change (ctmp 4) with 0x07. change (ctmp 5) with 0x93.
  change (ctmp 6) with 0x93. change (ctmp 7) with 0x56.
  repeat match goal with
         | |- context [JS.xor (Some ?a) (Some ?k)] =>
             let E := fresh "E" in
             let B := fresh "B" in
             destruct (xor_bytes a k) as [E B]; [assumption|assumption|];
             rewrite E; clear E
         end.
  rewrite !mix_bytes by assumption.
  rewrite !band_ff.
  unfold decrypt_spec, unmix, JS.of_buffer. cbn [map].
  rewrite !mod256_bias. reflexivity.
Qed.

(** X1. Whatever the key and the data buffers hold, and however long they
    are, [_decrypt] returns an array of exactly eight numbers, each a byte. *)
Theorem decrypt_frame_bytes (key data : list Z) :
  exists bs,
    _decrypt key data = JS.of_buffer bs
    /\ List.length bs = 8%nat
    /\ Forall is_byte bs.
Proof.
  destruct (_decrypt_shape key data) as [f [Hf Hr]].
  exists (map f (seq 0 8)). split; [exact Hf|]. split; [reflexivity|].
  apply Forall_forall. intros b Hb. apply in_map_iff in Hb.
  destruct Hb as [i [<- _]]. apply Hr.
Qed.

Lemma int32_of_pad8 (b : list Z) (i : nat) :
  (i < 8)%nat ->
  JS.int32_of (JS.buf_get (pad8 b) i) = JS.int32_of (JS.buf_get b i).
Proof.
  intros Hi. unfold JS.buf_get, pad8.
  rewrite nth_error_firstn.
  destruct (Nat.ltb_spec i 8) as [_|Hge]; [|lia].
  destruct (Nat.lt_ge_cases i (List.length b)) as [Hin|Hout].
  - rewrite nth_error_app1 by exact Hin. reflexivity.
  - rewrite nth_error_app2 by exact Hout.
    assert (Hnone : nth_error b i = None) by (apply nth_error_None; exact Hout).
    rewrite Hnone.
    assert (Hz : nth_error (repeat 0 8) (i - List.length b) = Some 0).
    { apply nth_error_repeat. lia. }
    rewrite Hz. reflexivity.
Qed.

Lemma xor_pad8 (key data : list Z) (i j : nat) :
  (i < 8)%nat -> (j < 8)%nat ->
  JS.xor (JS.buf_get data i) (JS.buf_get key j)
  = JS.xor (JS.buf_get (pad8 data) i) (JS.buf_get (pad8 key) j).
Proof.
  intros Hi Hj. unfold JS.xor. rewrite !int32_of_pad8 by assumption.
  reflexivity.
Qed.

Lemma decrypt_pad8 (key data : list Z) :
  _decrypt key data = _decrypt (pad8 key) (pad8 data).
Proof.
  unfold _decrypt. cbn [List.length cstate seq fold_left].
  unfold xor_step. cbn [nth shuffle].
  rewrite (xor_pad8 key data 0 2), (xor_pad8 key data 1 4),
    (xor_pad8 key data 2 0), (xor_pad8 key data 3 7),
    (xor_pad8 key data 4 1), (xor_pad8 key data 5 6),
    (xor_pad8 key data 6 5), (xor_pad8 key data 7 3) by lia.
  reflexivity.
Qed.

Lemma pad8_length (b : list Z) : List.length (pad8 b) = 8%nat.
Proof.
  unfold pad8. rewrite length_firstn, length_app, repeat_length. lia.
Qed.

Lemma pad8_idem (b : list Z) : pad8 (pad8 b) = pad8 b.
Proof.
  unfold pad8 at 1. rewrite firstn_app, pad8_length.
  rewrite Nat.sub_diag, firstn_0, app_nil_r.
  apply firstn_all2. rewrite pad8_length. lia.
Qed.

(** X2. [_decrypt] reads the first eight bytes of the key and of the data
    and takes a missing byte for 0: a short buffer decrypts as the buffer
    filled with zeros, a long one as its first eight bytes; in particular
    the empty buffer decrypts as the all-zero frame. *)
Theorem decrypt_pads (key data : list Z) :
  _decrypt key data = _decrypt (pad8 key) (pad8 data)
  /\ _decrypt key [] = _decrypt key [0; 0; 0; 0; 0; 0; 0; 0]
  /\ forall more, _decrypt key (pad8 data ++ more) = _decrypt key (pad8 data).
Proof.
  split; [apply decrypt_pad8|]. split.
  - rewrite (decrypt_pad8 key []), (decrypt_pad8 key [0; 0; 0; 0; 0; 0; 0; 0]).
    reflexivity.
  - intros more.
    rewrite (decrypt_pad8 key (pad8 data ++ more)),
      (decrypt_pad8 key (pad8 data)).
    f_equal. unfold pad8 at 1. rewrite <- app_assoc, firstn_app, pad8_length.
    rewrite Nat.sub_diag, firstn_0, app_nil_r.
    rewrite pad8_idem. apply firstn_all2. rewrite pad8_length. lia.
Qed.

(** X3. On eight key bytes and eight data bytes the loops of [_decrypt]
    compute the arithmetic form of the cipher: each data byte is xored with
    the key byte at its shuffled position, each position takes the high five
    bits of its byte under the low three bits of the byte before it, and the
    constant of the position is subtracted modulo 256; the results are
    bytes. *)
Theorem decrypt_closed_form (key data : list Z) :
  List.length key = 8%nat -> List.length data = 8%nat ->
  Forall is_byte key -> Forall is_byte data ->
  _decrypt key data = JS.of_buffer (decrypt_spec key data)
  /\ List.length (decrypt_spec key data) = 8%nat
  /\ Forall is_byte (decrypt_spec key data).
Proof.
  intros Hk Hd Bk Bd.
  split; [apply decrypt_spec_bytes; assumption|].
  list8 key Hk. list8 data Hd. cbn [decrypt_spec].
  split; [reflexivity|].
  repeat (apply Forall_cons; [apply unmix_byte|]). apply Forall_nil.
Qed.

Lemma decrypt_closed_form_witness :
  _decrypt fixed_key [0; 0; 0; 0; 0; 0; 0; 0]
  = JS.of_buffer (decrypt_spec fixed_key [0; 0; 0; 0; 0; 0; 0; 0]).
Proof.
  apply (decrypt_closed_form fixed_key [0; 0; 0; 0; 0; 0; 0; 0]);
    try reflexivity; unfold fixed_key; bytes_ok.
Defined.

(** X4. Under one key of eight bytes, two frames of eight bytes that decrypt
    to the same frame are the same frame. *)
Theorem decrypt_injective (key data data' : list Z) :
  List.length key = 8%nat ->
  List.length data = 8%nat -> List.length data' = 8%nat ->
  Forall is_byte key -> Forall is_byte data -> Forall is_byte data' ->
  _decrypt key data = _decrypt key data' -> data = data'.
Proof.
  intros Hk Hd Hd' Bk Bd Bd' H.
  rewrite !decrypt_spec_bytes in H by assumption.
  apply (f_equal (map (fun o => match o with Some b => b | None => 0 end))) in H.
  unfold JS.of_buffer in H. rewrite !map_map, !map_id in H.
  list8 key Hk. list8 data Hd. list8 data' Hd'.
  bytes8 Bk. bytes8 Bd. bytes8 Bd'.
  cbn [decrypt_spec] in H.
  injection H as H0 H1 H2 H3 H4 H5 H6 H7.
  repeat match goal with
         | Hu : unmix _ _ _ = unmix _ _ _ |- _ =>
             apply unmix_inj in Hu;
             [destruct Hu|apply xor_bytes; assumption..]
         end.
  repeat match goal with
         | Hq : ?x / 8 = ?y / 8, Hr : ?x mod 8 = ?y mod 8 |- _ =>
             pose proof (lxor_cancel _ _ _ (byte_of_parts x y Hq Hr));
             clear Hq Hr
         end.
  subst. reflexivity.
Qed.

Lemma decrypt_injective_witness :
  _decrypt fixed_key [1; 2; 3; 4; 5; 6; 7; 8]
  = _decrypt fixed_key [1; 2; 3; 4; 5; 6; 7; 8]
  /\ [1; 2; 3; 4; 5; 6; 7; 8] = [1; 2; 3; 4; 5; 6; 7; 8].
Proof.
  split; [reflexivity|].
  apply (decrypt_injective fixed_key);
    try reflexivity; unfold fixed_key; bytes_ok.
Defined.

(** ** Further properties of the data handler *)

Lemma arr_get_firstn (d : list (option Z)) (n i : nat) :
  (i < n)%nat -> JS.arr_get (firstn n d) i = JS.arr_get d i.
Proof.
  intros Hi. unfold JS.arr_get. rewrite nth_error_firstn.
  destruct (Nat.ltb_spec i n); [reflexivity|lia].
Qed.

Lemma on_frame_prefix (d : list (option Z)) (s : session) :
  on_frame d s = on_frame (firstn 5 d) s.
Proof.
  unfold on_frame, checksum_error, sum3, value_of.
  rewrite !arr_get_firstn by lia.
  rewrite firstn_firstn. reflexivity.
Qed.

(** X5. The handler looks at the first five entries of the decoded frame
    only: entries 5 to 7, and anything after them, change neither the
    verdict of the checksum nor the reading. *)
Theorem on_frame_first_five (d rest rest' : list (option Z)) (s : session) :
  List.length d = 5%nat ->
  on_frame (d ++ rest) s = on_frame (d ++ rest') s.
Proof.
  intros Hlen.
  rewrite (on_frame_prefix (d ++ rest)), (on_frame_prefix (d ++ rest')).
  rewrite !firstn_app, Hlen, Nat.sub_diag, !firstn_0. reflexivity.
Qed.

Lemma on_frame_first_five_witness :
  on_frame (JS.of_buffer [0x50; 0x02; 0x58; 0xAA; 0x0D; 0; 0; 0]) (constructor None)
  = on_frame (JS.of_buffer [0x50; 0x02; 0x58; 0xAA; 0x0D; 9; 9; 9; 9]) (constructor None).
Proof.
  apply (on_frame_first_five (JS.of_buffer [0x50; 0x02; 0x58; 0xAA; 0x0D])
           (JS.of_buffer [0; 0; 0]) (JS.of_buffer [9; 9; 9; 9])).
  reflexivity.
Defined.

Lemma buf_get_pad8 (b : list Z) (i : nat) (v : Z) :
  JS.buf_get b i = Some v -> (i < 8)%nat -> JS.buf_get (pad8 b) i = Some v.
Proof.
  unfold JS.buf_get, pad8. intros Hv Hi.
  rewrite nth_error_firstn.
  destruct (Nat.ltb_spec i 8); [|lia].
  rewrite nth_error_app1; [exact Hv|].
  apply nth_error_Some. congruence.
Qed.

Lemma firstn5_pad8 (b : list Z) :
  (5 <= List.length b)%nat ->
  firstn 5 (JS.of_buffer (pad8 b)) = firstn 5 (JS.of_buffer b).
Proof.
  intros Hlen. unfold JS.of_buffer, pad8.
  rewrite <- !firstn_map, firstn_firstn. cbn [Nat.min].
  rewrite map_app, firstn_app.
  rewrite length_map.
  replace (5 - List.length b)%nat with 0%nat by lia.
  cbn [firstn]. apply app_nil_r.
Qed.

(** X6. The handler treats a raw frame of any length as the frame cut or
    zero-filled to eight bytes: a short read is handled as if the missing
    bytes were 0, and bytes after the eighth are ignored. *)
Theorem on_data_pads (data : list Z) (s : session) :
  on_data data s = on_data (pad8 data) s.
Proof.
  unfold on_data, bind, get_this, decode.
  destruct (differs (JS.buf_get data 4) 0x0d) eqn:E.
  - assert (E' : differs (JS.buf_get (pad8 data) 4) 0x0d = true).
    { destruct (differs (JS.buf_get (pad8 data) 4) 0x0d) eqn:E'; [reflexivity|].
      apply differs_spec in E'.
      unfold JS.buf_get, pad8 in E'. rewrite nth_error_firstn in E'.
      cbn [Nat.ltb Nat.leb] in E'.
      destruct (Nat.lt_ge_cases 4 (List.length data)) as [Hin|Hout].
      - rewrite nth_error_app1 in E' by exact Hin.
        unfold JS.buf_get in E. rewrite E' in E. discriminate E.
      - rewrite nth_error_app2 in E' by exact Hout.
        rewrite nth_error_repeat in E' by lia. discriminate E'. }
    rewrite E'.
    assert (H : _decrypt (_key (this s)) (pad8 data)
                = _decrypt (_key (this s)) data).
    { rewrite (decrypt_pad8 _ (pad8 data)), pad8_idem.
      symmetry. apply decrypt_pad8. }
    rewrite H. reflexivity.
  - apply differs_spec in E.
    rewrite (buf_get_pad8 data 4 0x0d E) by lia.
    cbn [differs Z.eqb Pos.eqb negb].
    rewrite (on_frame_prefix (JS.of_buffer data)),
      (on_frame_prefix (JS.of_buffer (pad8 data))).
    rewrite firstn5_pad8; [reflexivity|].
    assert (4 < List.length data)%nat; [|lia].
    apply nth_error_Some. unfold JS.buf_get in E. congruence.
Qed.

(** X7. On every raw frame, of any length and content, the handler returns
    without throwing, adds at most one event to the trace, and leaves the
    ids, the key and the device, interface and endpoint of the session as
    they were. *)
Theorem on_data_safe (data : list Z) (s : session) :
  let s' := snd (on_data data s) in
  fst (on_data data s) = Returned tt
  /\ connection_of (this s') = connection_of (this s)
  /\ exists evs, trace s' = trace s ++ evs /\ (List.length evs <= 1)%nat.
Proof.
  cbv zeta.
  assert (Hrun : on_data data s = on_frame (decode (_key (this s)) data) s)
    by reflexivity.
  rewrite Hrun. generalize (decode (_key (this s)) data). intros d.
  destruct (checksum_error d) eqn:E.
  - rewrite (on_frame_rejected d s E). cbn.
    repeat split. eexists. split; [reflexivity|]. apply Nat.le_refl.
  - rewrite (on_frame_dispatch d s E). cbv zeta. cbn [fst snd].
    split; [reflexivity|].
    destruct (is_op (JS.arr_get d 0) 0x42);
      [|destruct (is_op (JS.arr_get d 0) 0x50);
        [|destruct (is_op (JS.arr_get d 0) 0x41)]];
      cbn [this trace]; (split; [reflexivity|]).
    4: exists []; split; [symmetry; apply app_nil_r|apply Nat.le_0_l].
    all: eexists; split; [reflexivity|apply Nat.le_refl].
Qed.

(** X8. The checksum catches every change of a single byte among bytes 0 to
    4 of an accepted frame: the frame with one of them replaced by another
    byte is rejected. *)
Theorem checksum_detects_one_byte (b0 b1 b2 b3 b5 b6 b7 c : Z) :
  is_byte b0 -> is_byte b1 -> is_byte b2 -> is_byte b3 -> is_byte c ->
  checksum_error (JS.of_buffer [b0; b1; b2; b3; 0x0D; b5; b6; b7]) = false ->
  (c <> b0 -> checksum_error (JS.of_buffer [c; b1; b2; b3; 0x0D; b5; b6; b7]) = true)
  /\ (c <> b1 -> checksum_error (JS.of_buffer [b0; c; b2; b3; 0x0D; b5; b6; b7]) = true)
  /\ (c <> b2 -> checksum_error (JS.of_buffer [b0; b1; c; b3; 0x0D; b5; b6; b7]) = true)
  /\ (c <> b3 -> checksum_error (JS.of_buffer [b0; b1; b2; c; 0x0D; b5; b6; b7]) = true)
  /\ (c <> 0x0D -> checksum_error (JS.of_buffer [b0; b1; b2; b3; c; b5; b6; b7]) = true).
Proof.
  unfold is_byte. intros H0 H1 H2 H3 Hc Hok.
  apply checksum_error_frame8 in Hok. destruct Hok as [_ Hsum].
  repeat split; intros Hne;
    (destruct (checksum_error _) eqn:E; [reflexivity|]);
    apply checksum_error_frame8 in E; destruct E as [E4 E3];
    exfalso; revert Hsum E3 E4; Z.div_mod_to_equations; lia.
Qed.

Lemma checksum_detects_one_byte_witness :
  checksum_error (JS.of_buffer [0x50; 0x02; 0x58; 0xAA; 0x0D; 0; 0; 0]) = false
  /\ checksum_error (JS.of_buffer [0x50; 0x03; 0x58; 0xAA; 0x0D; 0; 0; 0]) = true.
Proof.
  split; [vm_compute; reflexivity|].
  apply (checksum_detects_one_byte 0x50 0x02 0x58 0xAA 0 0 0 0x03);
    try (unfold is_byte; lia); try discriminate.
  vm_compute; reflexivity.
Defined.

Lemma on_data_plain (s : session) (b0 b1 b2 b3 b5 b6 b7 : Z) :
  on_data [b0; b1; b2; b3; 0x0D; b5; b6; b7] s
  = on_frame (JS.of_buffer [b0; b1; b2; b3; 0x0D; b5; b6; b7]) s.
Proof. reflexivity. Qed.

Lemma value_of_frame8 (b0 b1 b2 b3 b4 b5 b6 b7 : Z) :
  is_byte b1 -> is_byte b2 ->
  value_of (JS.of_buffer [b0; b1; b2; b3; b4; b5; b6; b7]) = 256 * b1 + b2.
Proof. intros H1 H2. unfold value_of. cbn. apply value_bytes; assumption. Qed.

(** X9. The value of a frame is the 16-bit number with byte 1 as its high
    and byte 2 as its low byte.  A plaintext frame with opcode 0x50 and a
    right checksum caches and emits exactly that number as the CO2 reading;
    with opcode 0x41 it caches and emits that number divided by 100 as the
    humidity. *)
Theorem readings_big_endian (s : session) (b1 b2 b5 b6 b7 : Z) :
  is_byte b1 -> is_byte b2 ->
  let v := 256 * b1 + b2 in
  let sc := snd (on_data [0x50; b1; b2; (0x50 + b1 + b2) mod 256; 0x0D; b5; b6; b7] s) in
  let sh := snd (on_data [0x41; b1; b2; (0x41 + b1 + b2) mod 256; 0x0D; b5; b6; b7] s) in
  0 <= v < 65536
  /\ co2 (this sc) = Some v
  /\ trace sc = trace s ++ [Emit (EvCo2 v)]
  /\ humidity (this sh) = Some (JS.num_of_Z v / 100)%float
  /\ trace sh = trace s ++ [Emit (EvHum (JS.num_of_Z v / 100)%float)].
Proof.
  intros H1 H2. cbv zeta. rewrite !on_data_plain.
  rewrite !on_frame_dispatch
    by (apply checksum_error_frame8; split; reflexivity).
  cbv zeta. rewrite !value_of_frame8 by assumption.
  cbn [JS.arr_get JS.of_buffer map nth_error is_op differs Z.eqb Pos.eqb negb
       snd this trace co2 humidity _co2 _hum set_co2 set_hum].
  split; [unfold is_byte in *; lia|]. repeat split; reflexivity.
Qed.

Lemma readings_big_endian_witness :
  co2 (this (snd (on_data [0x50; 0xFF; 0xFF; 0x4E; 0x0D; 0; 0; 0] (constructor None))))
  = Some 65535.
Proof.
  apply (readings_big_endian (constructor None) 0xFF 0xFF 0 0 0);
    unfold is_byte; lia.
Defined.





Lemma on_data_keeps_key (data : list Z) (s : session) :
  _key (this (snd (on_data data s))) = _key (this s).
Proof.
  assert (Hrun : on_data data s = on_frame (decode (_key (this s)) data) s)
    by reflexivity.
  rewrite Hrun. generalize (decode (_key (this s)) data). intros d.
  destruct (checksum_error d) eqn:E.
  - rewrite (on_frame_rejected d s E). reflexivity.
  - rewrite (on_frame_dispatch d s E). cbv zeta. cbn [snd].
    destruct (is_op (JS.arr_get d 0) 0x42);
      [|destruct (is_op (JS.arr_get d 0) 0x50);
        [|destruct (is_op (JS.arr_get d 0) 0x41)]];
      reflexivity.
Qed.

Lemma on_data_cases (data : list Z) (s : session) :
  let op := accepted_op (_key (this s)) data in
  let m' := this (snd (on_data data s)) in
  (op <> Some 0x42 -> temperature m' = temperature (this s))
  /\ (op <> Some 0x50 -> co2 m' = co2 (this s))
  /\ (op <> Some 0x41 -> humidity m' = humidity (this s)).
Proof.
  cbv zeta. unfold accepted_op.
  assert (Hrun : on_data data s = on_frame (decode (_key (this s)) data) s)
    by reflexivity.
  rewrite Hrun. generalize (decode (_key (this s)) data). intros d.
  destruct (checksum_error d) eqn:E.
  - rewrite (on_frame_rejected d s E). cbn. repeat split.
  - rewrite (on_frame_dispatch d s E). cbv zeta. cbn [snd].
    destruct (is_op (JS.arr_get d 0) 0x42) eqn:E42;
      [|destruct (is_op (JS.arr_get d 0) 0x50) eqn:E50;
        [|destruct (is_op (JS.arr_get d 0) 0x41) eqn:E41]];
      try (apply is_op_spec in E42); try (apply is_op_spec in E50);
      try (apply is_op_spec in E41);
      cbn [this]; repeat split; intros Hne; try reflexivity; congruence.
Qed.

(** X11. Over any sequence of 'data' events, a cached reading changes only
    through an accepted frame of its own opcode: if no frame of the sequence
    passes the checksum with opcode 0x42 the temperature is what it was
    before the sequence, and likewise 0x50 for co2 and 0x41 for humidity.
    Rejected frames and frames of other opcodes never disturb it. *)
Theorem feed_keeps_readings (frames : list (list Z)) (s : session) :
  let key := _key (this s) in
  let m' := this (feed frames s) in
  ((forall data, In data frames -> accepted_op key data <> Some 0x42) ->
   temperature m' = temperature (this s))
  /\ ((forall data, In data frames -> accepted_op key data <> Some 0x50) ->
      co2 m' = co2 (this s))
  /\ ((forall data, In data frames -> accepted_op key data <> Some 0x41) ->
      humidity m' = humidity (this s)).
Proof.
  cbv zeta. revert s. induction frames as [|data frames IH]; intros s.
  - repeat split.
  - cbn [feed fold_left]. fold (feed frames (snd (on_data data s))).
    specialize (IH (snd (on_data data s))).
    rewrite on_data_keeps_key in IH.
    destruct IH as (IHt & IHc & IHh).
    destruct (on_data_cases data s) as (Ht & Hc & Hh). cbv zeta in Ht, Hc, Hh.
    repeat split; intros Hall.
    + rewrite IHt by (intros d Hd; apply Hall; right; exact Hd).
      apply Ht, Hall. left. reflexivity.
    + rewrite IHc by (intros d Hd; apply Hall; right; exact Hd).
      apply Hc, Hall. left. reflexivity.
    + rewrite IHh by (intros d Hd; apply Hall; right; exact Hd).
      apply Hh, Hall. left. reflexivity.
Qed.

(** ** Further properties of the connection life cycle *)

Lemma connect_success_run (env : usb_env) (s : session)
  (dev : device) (itf : interface) :
  findByIds env (_vid (this s)) (_pid (this s)) = Some dev ->
  nth_error (interfaces dev) 0 = Some itf ->
  open_throws env = None ->
  detachKernelDriver_throws env = None ->
  controlTransfer_err env = None ->
  claim_throws env = None ->
  connect env s =
  (Returned tt,
   {| this := set_endpoint (ref_of (nth_error (endpoints itf) 0))
                (set_interface (Obj itf) (set_device (Obj dev) (this s)));
      trace := trace s
               ++ handshake_calls env itf (_key (this s))
               ++ [Usb Claim;
                   Emit (EvConnect (ref_of (nth_error (endpoints itf) 0)));
                   Callback None] |}).
Proof.
  intros Hfind Hitf Hopen Hdetach Hctl Hclaim.
  unfold connect, handshake_calls. run.
  rewrite Hfind. run. rewrite Hopen, Hitf. run.
  destruct (is_linux env); [destruct (kernelDriverActive itf)|];
    run; rewrite ?Hdetach, Hctl; run; rewrite Hclaim; run;
    rewrite <- ?app_assoc; reflexivity.
Qed.

Lemma transfer_run (env : usb_env) (s : session) (ep : endpoint) :
  _endpoint (this s) = Obj ep ->
  startPoll_throws env = None ->
  transfer env s =
  (Returned tt,
   {| this := this s;
      trace := trace s
               ++ match transfer_err env with
                  | Some err =>
                      [Usb (Transfer 8); Emit (EvError err); Callback (Some err)]
                  | None => polling_calls
                  end |}).
Proof.
  intros Hep Hpoll. unfold transfer, polling_calls. run. rewrite Hep. run.
  destruct (transfer_err env); run; rewrite ?Hpoll; run;
    rewrite <- ?app_assoc; reflexivity.
Qed.

Lemma disconnect_run (env : usb_env) (s : session)
  (dev : device) (itf : interface) (ep : endpoint) :
  _device (this s) = Obj dev ->
  _interface (this s) = Obj itf ->
  _endpoint (this s) = Obj ep ->
  stopPoll_throws env = None ->
  attachKernelDriver_throws env = None ->
  close_throws env = None ->
  disconnect env s =
  (Returned tt, {| this := this s; trace := trace s ++ teardown_calls env |}).
Proof.
  intros Hdev Hitf Hep Hstop Hattach Hclose.
  unfold disconnect, teardown_calls. run. rewrite Hep, Hstop, Hitf, Hdev. run.
  destruct (is_linux env); run; rewrite ?Hattach; run;
    destruct (release_err env); run; rewrite Hclose; run;
    rewrite <- ?app_assoc; reflexivity.
Qed.

Lemma round_trip_run (env : usb_env) (s : session)
  (dev : device) (itf : interface) (ep : endpoint) :
  cooperative env ->
  findByIds env (_vid (this s)) (_pid (this s)) = Some dev ->
  nth_error (interfaces dev) 0 = Some itf ->
  nth_error (endpoints itf) 0 = Some ep ->
  let s1 := snd (connect env s) in
  let s2 := snd (transfer env s1) in
  let s3 := snd (disconnect env s2) in
  fst (connect env s) = Returned tt
  /\ fst (transfer env s1) = Returned tt
  /\ fst (disconnect env s2) = Returned tt
  /\ trace s3 = trace s
                ++ handshake_calls env itf (_key (this s))
                ++ [Usb Claim; Emit (EvConnect (Obj ep)); Callback None]
                ++ polling_calls
                ++ teardown_calls env
  /\ (_device (this s3), _interface (this s3), _endpoint (this s3))
     = (Obj dev, Obj itf, Obj ep).
Proof.
  intros (Hopen & Hdetach & Hctl & Hclaim & Htr & Hpoll & Hstop & Hattach
          & Hrel & Hclose) Hfind Hitf Hep.
  cbv zeta.
  rewrite (connect_success_run env s dev itf) by assumption.
  rewrite Hep. cbn [fst snd ref_of].
  rewrite (transfer_run env _ ep) by (reflexivity || assumption).
  rewrite Htr. cbn [fst snd].
  rewrite (disconnect_run env _ dev itf ep) by (reflexivity || assumption).
  cbn [fst snd this trace].
  repeat split. rewrite <- !app_assoc. reflexivity.
Qed.

(** X12. When no device has the ids of the session, [connect] makes no call
    on a device: it sets the device field to [undefined], emits the error
    'Device not found!' and calls back with it; interface, endpoint and
    readings are untouched. *)
Theorem connect_device_not_found (env : usb_env) (s : session) :
  findByIds env (_vid (this s)) (_pid (this s)) = None ->
  connect env s =
  (Returned tt,
   {| this := set_device Undefined (this s);
      trace := trace s
               ++ [Emit (EvError (JsError "Device not found!"));
                   Callback (Some (JsError "Device not found!"))] |}).
Proof.
  intros Hfind. unfold connect. run. rewrite Hfind. run.
  rewrite <- app_assoc. reflexivity.
Qed.

Lemma connect_device_not_found_witness :
  let env := usb_with "linux" sensor None None None in
  let s := constructor (Some {| vid := VNum 1; pid := VUndefined; debug := VUndefined |}) in
  findByIds env (_vid (this s)) (_pid (this s)) = None
  /\ _device (this (snd (connect env s))) = Undefined.
Proof.
  cbv zeta. split; [reflexivity|].
  rewrite (connect_device_not_found (usb_with "linux" sensor None None None));
    reflexivity.
Defined.

(** X13. When the device is found, opens and has an interface, and neither
    the detach, the handshake nor the claim fails, [connect] opens the
    device, on Linux detaches an active kernel driver, sends the key in the
    control transfer 0x21 / 0x09 / 0x0300 / 0, claims the interface, stores
    the first endpoint of the interface, emits 'connect' with it and calls
    back without an error, in this order. *)
Theorem connect_success (env : usb_env) (s : session)
  (dev : device) (itf : interface) :
  findByIds env (_vid (this s)) (_pid (this s)) = Some dev ->
  nth_error (interfaces dev) 0 = Some itf ->
  open_throws env = None ->
  detachKernelDriver_throws env = None ->
  controlTransfer_err env = None ->
  claim_throws env = None ->
  let ep := ref_of (nth_error (endpoints itf) 0) in
  connect env s =
  (Returned tt,
   {| this := set_endpoint ep (set_interface (Obj itf) (set_device (Obj dev) (this s)));
      trace := trace s
               ++ handshake_calls env itf (_key (this s))
               ++ [Usb Claim; Emit (EvConnect ep); Callback None] |}).
Proof. intros. apply connect_success_run; assumption. Qed.

Lemma connect_success_witness :
  let env := usb_with "linux" sensor None None None in
  trace (snd (connect env (constructor None)))
  = [ConsoleLog; Usb Open; Usb IsKernelDriverActive; Usb DetachKernelDriver;
     Usb (ControlTransfer 0x21 0x09 0x0300 0x00 fixed_key); Usb Claim;
     Emit (EvConnect (Obj {| address := 0x81 |})); Callback None].
Proof.
  cbv zeta.
  rewrite (connect_success (usb_with "linux" sensor None None None)
             (constructor None) sensor
             {| kernelDriverActive := true; endpoints := [ {| address := 0x81 |} ] |});
    reflexivity.
Defined.



(** X15. On a session whose endpoint field is [null] or [undefined], that is
    before a successful [connect], [transfer] and [disconnect] both throw a
    TypeError at their first statement and do nothing else: no library
    call, no event, no callback. *)
Theorem transfer_without_endpoint (env : usb_env) (s : session) :
  (forall ep, _endpoint (this s) <> Obj ep) ->
  transfer env s = (Thrown (JsTypeError "transfer"), s)
  /\ disconnect env s = (Thrown (JsTypeError "stopPoll"), s).
Proof.
  intros Hep. unfold transfer, disconnect. run.
  destruct (_endpoint (this s)) as [| |ep]; try (split; reflexivity).
  contradiction (Hep ep). reflexivity.
Qed.

Lemma transfer_without_endpoint_witness :
  let env := usb_with "linux" sensor None None None in
  transfer env (constructor None)
  = (Thrown (JsTypeError "transfer"), constructor None).
Proof.
  cbv zeta.
  apply (transfer_without_endpoint (usb_with "linux" sensor None None None)
           (constructor None)).
  intros ep. discriminate.
Defined.

(** X16. On a connected session, [transfer] first reads 8 bytes.  If that
    read fails, the error is emitted and handed to the callback, and polling
    is not started and no handler is installed.  If it succeeds, polling
    starts with 8 transfers, the 'data' and 'error' handlers are installed
    and the callback is called without an error.  No field of the session
    changes either way. *)
Theorem transfer_outcomes (env : usb_env) (s : session) (ep : endpoint) :
  _endpoint (this s) = Obj ep ->
  startPoll_throws env = None ->
  transfer env s =
  (Returned tt,
   {| this := this s;
      trace := trace s
               ++ match transfer_err env with
                  | Some err =>
                      [Usb (Transfer 8); Emit (EvError err); Callback (Some err)]
                  | None => polling_calls
                  end |}).
Proof. intros. apply (transfer_run env s ep); assumption. Qed.

Lemma transfer_outcomes_witness :
  let env := usb_with "linux" sensor None None None in
  let s := snd (connect env (constructor None)) in
  _endpoint (this s) = Obj {| address := 0x81 |}
  /\ trace (snd (transfer env s)) = trace s ++ polling_calls.
Proof.
  cbv zeta. split; [reflexivity|].
  rewrite (transfer_outcomes (usb_with "linux" sensor None None None) _
             {| address := 0x81 |});
    reflexivity.
Defined.

(** X17. On a connected session, when [stopPoll], [attachKernelDriver] and
    [close] do not throw, [disconnect] runs the whole teardown in order:
    stop the poll, on Linux reattach the kernel driver, release the
    interface, close the device, emit 'disconnect', call back.  A failure of
    the release is emitted as an error and handed to the callback and does
    not stop the teardown. *)
Theorem disconnect_completes (env : usb_env) (s : session)
  (dev : device) (itf : interface) (ep : endpoint) :
  _device (this s) = Obj dev ->
  _interface (this s) = Obj itf ->
  _endpoint (this s) = Obj ep ->
  stopPoll_throws env = None ->
  attachKernelDriver_throws env = None ->
  close_throws env = None ->
  disconnect env s =
  (Returned tt, {| this := this s; trace := trace s ++ teardown_calls env |}).
Proof. intros. apply (disconnect_run env s dev itf ep); assumption. Qed.

Lemma disconnect_completes_witness :
  let env := usb_with "linux" sensor None None (Some (UsbError (-5))) in
  trace (snd (disconnect env polling_session))
  = trace polling_session
    ++ [Usb StopPoll; Usb AttachKernelDriver; Usb (Release true);
        Emit (EvError (UsbError (-5))); Usb Close; Emit EvDisconnect;
        Callback (Some (UsbError (-5)))].
Proof.
  cbv zeta.
  rewrite (disconnect_completes
             (usb_with "linux" sensor None None (Some (UsbError (-5))))
             polling_session sensor
             {| kernelDriverActive := true; endpoints := [ {| address := 0x81 |} ] |}
             {| address := 0x81 |});
    reflexivity.
Defined.

(** X18. [transfer] and [disconnect] never write a field of the session,
    whatever the library answers and whether they return or throw.  In
    particular [disconnect] does not reset the device, the interface or the
    endpoint: after a teardown the session still holds them. *)
Theorem transfer_disconnect_keep_fields (env : usb_env) (s : session) :
  this (snd (transfer env s)) = this s
  /\ this (snd (disconnect env s)) = this s.
Proof.
  split.
  - unfold transfer. run. branches; reflexivity.
  - unfold disconnect. run. branches; reflexivity.
Qed.

(** X19. [connect] never writes the cached readings, the ids, the debug
    flag or the key, whatever the library answers and whether it returns or
    throws. *)
Theorem connect_keeps_readings (env : usb_env) (s : session) :
  let m' := this (snd (connect env s)) in
  readings_of m' = readings_of (this s)
  /\ (_vid m', _pid m', _debug m', _key m')
     = (_vid (this s), _pid (this s), _debug (this s), _key (this s)).
Proof.
  cbv zeta. unfold connect. run.
  destruct (findByIds env (_vid (this s)) (_pid (this s))) as [dev|]; run;
    [|split; reflexivity].
  destruct (open_throws env); run; [split; reflexivity|].
  destruct (nth_error (interfaces dev) 0) as [itf|]; run;
    branches; split; reflexivity.
Qed.

(** X20. With a library that never fails and a device with an interface and
    an endpoint, [connect], [transfer] and [disconnect] in a row all return,
    and the session has made exactly the calls of the handshake, the claim,
    the polling and the teardown, with one 'connect' and one 'disconnect'
    event; afterwards it still holds the device, interface and endpoint. *)
Theorem session_round_trip (env : usb_env) (s : session)
  (dev : device) (itf : interface) (ep : endpoint) :
  cooperative env ->
  findByIds env (_vid (this s)) (_pid (this s)) = Some dev ->
  nth_error (interfaces dev) 0 = Some itf ->
  nth_error (endpoints itf) 0 = Some ep ->
  let s1 := snd (connect env s) in
  let s2 := snd (transfer env s1) in
  let s3 := snd (disconnect env s2) in
  fst (connect env s) = Returned tt
  /\ fst (transfer env s1) = Returned tt
  /\ fst (disconnect env s2) = Returned tt
  /\ trace s3 = trace s
                ++ handshake_calls env itf (_key (this s))
                ++ [Usb Claim; Emit (EvConnect (Obj ep)); Callback None]
                ++ polling_calls
                ++ teardown_calls env
  /\ (_device (this s3), _interface (this s3), _endpoint (this s3))
     = (Obj dev, Obj itf, Obj ep).
Proof. intros. apply round_trip_run; assumption. Qed.

Lemma session_round_trip_witness :
  let env := usb_with "linux" sensor None None None in
  let s3 := snd (disconnect env polling_session) in
  cooperative env
  /\ fst (disconnect env polling_session) = Returned tt
  /\ _endpoint (this s3) = Obj {| address := 0x81 |}.
Proof.
  cbv zeta. split; [repeat split|].
  destruct (session_round_trip
              (usb_with "linux" sensor None None None) (constructor None) sensor
              {| kernelDriverActive := true; endpoints := [ {| address := 0x81 |} ] |}
              {| address := 0x81 |})
    as (_ & _ & Hret & _ & _); try reflexivity; [repeat split|].
  split; [exact Hret|reflexivity].
Defined.

(** X21. On Linux [disconnect] reattaches the kernel driver whether or not
    [connect] detached it: with an interface that no kernel driver holds,
    a whole session calls [attachKernelDriver] and never
    [detachKernelDriver]. *)
Theorem reattach_without_detach (env : usb_env) (s : session)
  (dev : device) (itf : interface) (ep : endpoint) :
  cooperative env ->
  is_linux env = true ->
  kernelDriverActive itf = false ->
  findByIds env (_vid (this s)) (_pid (this s)) = Some dev ->
  nth_error (interfaces dev) 0 = Some itf ->
  nth_error (endpoints itf) 0 = Some ep ->
  let s3 := snd (disconnect env (snd (transfer env (snd (connect env s))))) in
  exists calls,
    trace s3 = trace s ++ calls
    /\ In (Usb AttachKernelDriver) calls
    /\ ~ In (Usb DetachKernelDriver) calls.
Proof.
  intros Hco Hlinux Hactive Hfind Hitf Hep. cbv zeta.
  destruct (round_trip_run env s dev itf ep Hco Hfind Hitf Hep)
    as (_ & _ & _ & Htrace & _).
  cbv zeta in Htrace. rewrite Htrace. eexists. split; [reflexivity|].
  unfold handshake_calls, polling_calls, teardown_calls.
  rewrite Hlinux, Hactive.
  destruct Hco as (_ & _ & _ & _ & _ & _ & _ & _ & Hrel & _). rewrite Hrel.
  cbn. split; [intuition|intuition discriminate].
Qed.

Lemma reattach_without_detach_witness :
  let env := usb_with "linux" free_sensor None None None in
  let s3 := snd (disconnect env (snd (transfer env (snd (connect env (constructor None)))))) in
  cooperative env
  /\ exists calls,
      trace s3 = trace (constructor None) ++ calls
      /\ In (Usb AttachKernelDriver) calls
      /\ ~ In (Usb DetachKernelDriver) calls.
Proof.
  cbv zeta. split; [repeat split|].
  apply (reattach_without_detach
           (usb_with "linux" free_sensor None None None) (constructor None)
           free_sensor
           {| kernelDriverActive := false; endpoints := [ {| address := 0x81 |} ] |}
           {| address := 0x81 |});
    try reflexivity.
  repeat split.
Defined.

(** X22. On a platform other than Linux, [connect] on a device that opens
    but offers no interface reaches the check of the interface: it emits the
    error 'Interface not found!' and calls back with it, after [open] and
    without a control transfer or a claim. *)
Theorem connect_interface_not_found (env : usb_env) (s : session)
  (dev : device) :
  is_linux env = false ->
  findByIds env (_vid (this s)) (_pid (this s)) = Some dev ->
  interfaces dev = [] ->
  open_throws env = None ->
  connect env s =
  (Returned tt,
   {| this := set_interface Undefined (set_device (Obj dev) (this s));
      trace := trace s
               ++ [Usb Open; Emit (EvError (JsError "Interface not found!"));
                   Callback (Some (JsError "Interface not found!"))] |}).
Proof. intros. apply connect_without_interface_elsewhere; assumption. Qed.

Lemma connect_interface_not_found_witness :
  let env := usb_with "darwin" bare_device None None None in
  is_linux env = false
  /\ trace (snd (connect env (constructor None)))
     = [ConsoleLog; Usb Open; Emit (EvError (JsError "Interface not found!"));
        Callback (Some (JsError "Interface not found!"))].
Proof.
  cbv zeta. split; [reflexivity|].
  rewrite (connect_interface_not_found
             (usb_with "darwin" bare_device None None None)
             (constructor None) bare_device);
    reflexivity.
Defined.
